(** * Stock analysis: ticker resolution, dividend sources and yearly metrics

    A shallow embedding of [src/lib/eastmoney.ts] and of the request handler
    [src/app/api/stock/route.ts], with the properties of the data-fusion
    pipeline proved about it.

    Conventions of the embedding.
    - A JavaScript string is the list of its UTF-16 code units.
    - A JavaScript Number is [NaN], an infinity or a finite value.  Finite
      values are exact rationals: the rounding error and the overflow of
      IEEE-754 binary64 arithmetic, and the sign of zero, are not modelled.
    - An awaited promise either resolves with a value or rejects with the
      message of the thrown error.
    - What the platform supplies and the repository does not define (date
      parsing and the local time zone, [Math.pow], number printing, the
      regular-expression engine on the three patterns of the fund page) is a
      field of the record [Platform]; what the provider answers, and what
      [JSON.parse] makes of its texts, is a field of the record [Upstream].
    - The payloads have the shapes that the interfaces of the source declare
      and the fields that the code reads; a field holds [undefined], [null],
      a boolean, a number or a string. *)

From Stdlib Require Import QArith Qcanon Qround Ascii String.
From stdpp Require Import gmap strings list sorting pretty.

Local Open Scope Z_scope.

(** ** JavaScript strings *)

Module JsString.

Abbreviation jsstring := (list N).

(** Decoding of the UTF-8 bytes of a literal of this file into UTF-16 code
    units, so that literals read as they do in the source. *)
Fixpoint utf16_of_bytes (bs : list N) : jsstring :=
  match bs with
  | [] => []
  | b :: rest =>
      if (b <? 0x80)%N then b :: utf16_of_bytes rest
      else if (b <? 0xE0)%N then
        match rest with
        | b2 :: rest2 =>
            N.lor (N.shiftl (N.land b 0x1F) 6) (N.land b2 0x3F)
            :: utf16_of_bytes rest2
        | _ => [0xFFFD%N]
        end
      else if (b <? 0xF0)%N then
        match rest with
        | b2 :: b3 :: rest3 =>
            N.lor (N.shiftl (N.land b 0x0F) 12)
              (N.lor (N.shiftl (N.land b2 0x3F) 6) (N.land b3 0x3F))
            :: utf16_of_bytes rest3
        | _ => [0xFFFD%N]
        end
      else
        match rest with
        | b2 :: b3 :: b4 :: rest4 =>
            let cp :=
              N.lor (N.shiftl (N.land b 0x07) 18)
                (N.lor (N.shiftl (N.land b2 0x3F) 12)
                   (N.lor (N.shiftl (N.land b3 0x3F) 6) (N.land b4 0x3F))) in
            let v := (cp - 0x10000)%N in
            (0xD800 + N.shiftr v 10)%N :: (0xDC00 + N.land v 0x3FF)%N
            :: utf16_of_bytes rest4
        | _ => [0xFFFD%N]
        end
  end.

Definition lit (s : string) : jsstring :=
  utf16_of_bytes (map N_of_ascii (String.list_ascii_of_string s)).

(** The class [\s]: WhiteSpace and LineTerminator of ECMAScript. *)
Definition is_whitespace (c : N) : bool :=
  bool_decide (c ∈ [0x09; 0x0A; 0x0B; 0x0C; 0x0D; 0x20; 0xA0; 0x1680;
                    0x2028; 0x2029; 0x202F; 0x205F; 0x3000; 0xFEFF]%N)
  || ((0x2000 <=? c) && (c <=? 0x200A))%N.

(** The class [\d]: the ten ASCII digits. *)
Definition is_digit (c : N) : bool := ((0x30 <=? c) && (c <=? 0x39))%N.

(** The class [\w]. *)
Definition is_word (c : N) : bool :=
  is_digit c || ((0x41 <=? c) && (c <=? 0x5A))%N
  || ((0x61 <=? c) && (c <=? 0x7A))%N || (c =? 0x5F)%N.

(** [s.replace(/\s/g, "")] *)
Definition remove_whitespace (s : jsstring) : jsstring :=
  filter (λ c, is_whitespace c = false) s.

(** [s.slice(0, n)] for a literal [n >= 0]. *)
Definition slice0 (n : nat) (s : jsstring) : jsstring := take n s.

(** [arr.includes(x)] on an array of strings. *)
Definition includes (arr : list jsstring) (x : jsstring) : bool :=
  bool_decide (x ∈ arr).

(** [s.startsWith(p)], used by the models of the regular expressions. *)
Fixpoint starts_with (p s : jsstring) : bool :=
  match p, s with
  | [], _ => true
  | a :: p', b :: s' => (a =? b)%N && starts_with p' s'
  | _ :: _, [] => false
  end.

(** [s.includes(p)]: [p] occurs somewhere in [s]. *)
Fixpoint contains (p s : jsstring) : bool :=
  starts_with p s ||
  match s with
  | [] => false
  | _ :: s' => contains p s'
  end.

End JsString.
Import JsString.

(** ** JavaScript numbers *)

Module JsNumber.

Inductive number := NaN | PosInf | NegInf | Fin (q : Qc).

#[global] Instance number_eq_dec : EqDecision number.
Proof. solve_decision. Defined.

#[global] Instance number_countable : Countable number.
Proof.
  refine (inj_countable'
    (λ n, match n with
          | NaN => inl 0%nat | PosInf => inl 1%nat | NegInf => inl 2%nat
          | Fin q => inr q
          end)
    (λ s, match s with
          | inl 0%nat => NaN | inl 1%nat => PosInf | inl _ => NegInf
          | inr q => Fin q
          end) _).
  by intros [].
Defined.

Definition of_Z (z : Z) : number := Fin (Qc_of_Z z).

Definition isNaN (n : number) : bool :=
  match n with NaN => true | _ => false end.

Definition is_finite (n : number) : bool :=
  match n with Fin _ => true | _ => false end.

(** [a < b]; every comparison with [NaN] is false. *)
Definition lt (a b : number) : bool :=
  match a, b with
  | NaN, _ | _, NaN => false
  | PosInf, _ => false
  | _, NegInf => false
  | _, PosInf => true
  | NegInf, _ => true
  | Fin x, Fin y => bool_decide (x < y)%Qc
  end.

Definition gt (a b : number) : bool := lt b a.

(** [a <= b] *)
Definition le (a b : number) : bool :=
  match a, b with
  | NaN, _ | _, NaN => false
  | _, _ => negb (lt b a)
  end.

Definition neg (a : number) : number :=
  match a with
  | NaN => NaN | PosInf => NegInf | NegInf => PosInf | Fin x => Fin (- x)%Qc
  end.

Definition add (a b : number) : number :=
  match a, b with
  | NaN, _ | _, NaN => NaN
  | PosInf, NegInf | NegInf, PosInf => NaN
  | PosInf, _ | _, PosInf => PosInf
  | NegInf, _ | _, NegInf => NegInf
  | Fin x, Fin y => Fin (x + y)%Qc
  end.

Definition sub (a b : number) : number := add a (neg b).

(** An infinity with the sign of [x * inf]; [0 * inf] is [NaN]. *)
Definition signed_inf (x : Qc) (inf : number) : number :=
  if bool_decide (x = 0%Qc) then NaN
  else if bool_decide (0 < x)%Qc then inf else neg inf.

Definition mul (a b : number) : number :=
  match a, b with
  | NaN, _ | _, NaN => NaN
  | Fin x, Fin y => Fin (x * y)%Qc
  | Fin x, inf | inf, Fin x => signed_inf x inf
  | PosInf, PosInf | NegInf, NegInf => PosInf
  | _, _ => NegInf
  end.

Definition div (a b : number) : number :=
  match a, b with
  | NaN, _ | _, NaN => NaN
  | Fin x, Fin y =>
      if bool_decide (y = 0%Qc) then signed_inf x PosInf else Fin (x / y)%Qc
  | Fin _, _ => Fin 0%Qc
  | inf, Fin y => if bool_decide (y < 0)%Qc then neg inf else inf
  | _, _ => NaN
  end.

(** [Math.round]: the nearest integer, halves towards plus infinity. *)
Definition Math_round (a : number) : number :=
  match a with
  | Fin x => of_Z (Qfloor (x + Q2Qc (1 # 2))%Qc)
  | _ => a
  end.

(** ToBoolean. *)
Definition truthy (a : number) : bool :=
  match a with
  | NaN => false
  | Fin x => bool_decide (x ≠ 0%Qc)
  | _ => true
  end.

(** [Math.round(x * 100) / 100], the rounding of the response fields. *)
Definition round2 (x : number) : number :=
  div (Math_round (mul x (of_Z 100))) (of_Z 100).

#[global] Arguments lt : simpl never.
#[global] Arguments gt : simpl never.
#[global] Arguments le : simpl never.
#[global] Arguments add : simpl never.
#[global] Arguments sub : simpl never.
#[global] Arguments mul : simpl never.
#[global] Arguments div : simpl never.
#[global] Arguments truthy : simpl never.
#[global] Arguments round2 : simpl never.
#[global] Arguments of_Z : simpl never.

End JsNumber.
Import JsNumber.

(** ** eastmoney.ts: the ticker resolver *)

Inductive Market := sh | sz.

Record SecId := { secid : jsstring; market : Market }.

(** [raw.match(/^(\d{6})$/)]: the capture, when the whole string is six
    digits. *)
Definition match_six_digits (raw : jsstring) : option jsstring :=
  if (length raw =? 6)%nat && forallb is_digit raw then Some raw else None.

Definition toSecId (symbol : jsstring) : option SecId :=
  let raw := remove_whitespace symbol in
  match match_six_digits raw with
  | Some code =>
      let first := slice0 1 code in
      let first2 := slice0 2 code in
      if includes [lit "6"; lit "5"; lit "9"] first
      then Some {| secid := lit "1." ++ code; market := sh |}
      else if includes [lit "51"; lit "56"; lit "58"] first2
      then Some {| secid := lit "1." ++ code; market := sh |}
      else if includes [lit "0"; lit "3"] first
      then Some {| secid := lit "0." ++ code; market := sz |}
      else if includes [lit "15"; lit "16"] first2
      then Some {| secid := lit "0." ++ code; market := sz |}
      else None
  | None => None
  end.

(** What the resolver is specified to accept, stated on the input alone. *)
Definition six_ascii_digits (raw : jsstring) : Prop :=
  length raw = 6%nat ∧ Forall (λ c, (0x30 ≤ c ≤ 0x39)%N) raw.

Definition has_prefix (p raw : jsstring) : Prop := ∃ rest, raw = p ++ rest.



(** ** Conversions between strings and numbers *)

Module JsConv.

Fixpoint span (P : N → bool) (s : jsstring) : jsstring * jsstring :=
  match s with
  | c :: s' =>
      if P c then let '(a, b) := span P s' in (c :: a, b) else ([], s)
  | [] => ([], [])
  end.

Definition is_nil (s : jsstring) : bool :=
  match s with [] => true | _ => false end.

Definition trim_start (s : jsstring) : jsstring := (span is_whitespace s).2.

(** [s.trim()] *)
Definition trim (s : jsstring) : jsstring :=
  reverse (trim_start (reverse (trim_start s))).

(** The value of a digit in a base up to 16; letters in either case. *)
Definition digit_value (c : N) : Z :=
  if is_digit c then Z.of_N c - 0x30
  else if ((0x61 <=? c) && (c <=? 0x66))%N then Z.of_N c - 0x61 + 10
  else Z.of_N c - 0x41 + 10.

Definition is_radix_digit (base : Z) (c : N) : bool :=
  (is_digit c || ((0x61 <=? c) && (c <=? 0x66))%N
   || ((0x41 <=? c) && (c <=? 0x46))%N)
  && (digit_value c <? base).

Definition digits_value (base : Z) (ds : jsstring) : Z :=
  foldl (λ acc c, base * acc + digit_value c) 0 ds.

(** [q * 10^e] *)
Definition scale10 (q : Qc) (e : Z) : Qc :=
  if 0 <=? e then (q * Qc_of_Z (10 ^ e))%Qc else (q / Qc_of_Z (10 ^ (- e)))%Qc.

(** An ExponentPart at the head of [r]: its value and what follows it; no
    exponent when the letter is not followed by digits. *)
Definition exponent_prefix (r : jsstring) : Z * jsstring :=
  match r with
  | e :: t =>
      if ((e =? 0x65) || (e =? 0x45))%N then
        let '(sgn, t') :=
          match t with
          | 0x2B%N :: u => (1, u)
          | 0x2D%N :: u => (-1, u)
          | _ => (1, t)
          end in
        let '(ds, rest) := span is_digit t' in
        if is_nil ds then (0, r) else (sgn * digits_value 10 ds, rest)
      else (0, r)
  | [] => (0, r)
  end.

(** The longest prefix of [s] that is an unsigned decimal literal
    ([12], [12.], [12.5], [.5], each with an optional exponent). *)
Definition unsigned_decimal_prefix (s : jsstring) : option (Qc * jsstring) :=
  let '(ip, r1) := span is_digit s in
  let '(fp, r2) :=
    match r1 with
    | 0x2E%N :: t =>
        let '(f, r) := span is_digit t in
        if is_nil ip && is_nil f then ([], r1) else (f, r)
    | _ => ([], r1)
    end in
  if is_nil ip && is_nil fp then None
  else
    let mant :=
      (Qc_of_Z (digits_value 10 (ip ++ fp))
       / Qc_of_Z (10 ^ Z.of_nat (length fp)))%Qc in
    let '(e, r3) := exponent_prefix r2 in
    Some (scale10 mant e, r3).

(** The longest prefix of [s] that is a StrDecimalLiteral: an optional sign,
    then [Infinity] or an unsigned decimal literal. *)
Definition decimal_prefix (s : jsstring) : option (number * jsstring) :=
  let '(negative, t) :=
    match s with
    | 0x2B%N :: t => (false, t)
    | 0x2D%N :: t => (true, t)
    | _ => (false, s)
    end in
  let signed n := if negative then neg n else n in
  if starts_with (lit "Infinity") t then Some (signed PosInf, drop 8 t)
  else
    match unsigned_decimal_prefix t with
    | Some (q, r) => Some (signed (Fin q), r)
    | None => None
    end.

(** StringToNumber, the conversion [Number(s)] of a string. *)
Definition StringToNumber (s : jsstring) : number :=
  let t := trim s in
  match t with
  | [] => Fin 0%Qc
  | 0x30%N :: x :: ds =>
      let radix (base : Z) :=
        if negb (is_nil ds) && forallb (is_radix_digit base) ds
        then of_Z (digits_value base ds) else NaN in
      if ((x =? 0x78) || (x =? 0x58))%N then radix 16
      else if ((x =? 0x6F) || (x =? 0x4F))%N then radix 8
      else if ((x =? 0x62) || (x =? 0x42))%N then radix 2
      else match decimal_prefix t with Some (n, []) => n | _ => NaN end
  | _ => match decimal_prefix t with Some (n, []) => n | _ => NaN end
  end.

(** [parseFloat(s)] *)
Definition parseFloat (s : jsstring) : number :=
  match decimal_prefix (trim_start s) with
  | Some (n, _) => n
  | None => NaN
  end.

(** [parseInt(s, 10)] *)
Definition parseInt10 (s : jsstring) : number :=
  let t := trim_start s in
  let '(negative, u) :=
    match t with
    | 0x2B%N :: u => (false, u)
    | 0x2D%N :: u => (true, u)
    | _ => (false, t)
    end in
  let ds := (span is_digit u).1 in
  if is_nil ds then NaN
  else if negative then neg (of_Z (digits_value 10 ds))
  else of_Z (digits_value 10 ds).

(** [s.split(sep)] for a separator of one code unit: never an empty array. *)
Fixpoint split_on (sep : N) (s : jsstring) : list jsstring :=
  match s with
  | [] => [[]]
  | c :: s' =>
      if (c =? sep)%N then [] :: split_on sep s'
      else
        match split_on sep s' with
        | p :: ps => (c :: p) :: ps
        | [] => [[c]]
        end
  end.

End JsConv.
Import JsConv.

(** ** Values read from a JSON payload *)

Inductive jsval :=
| JUndefined
| JNull
| JBool (b : bool)
| JNum (n : number)
| JStr (s : jsstring).

(** [a ?? b] *)
Definition nullish (a b : jsval) : jsval :=
  match a with JUndefined | JNull => b | _ => a end.

(** [a === undefined] *)
Definition is_undefined (a : jsval) : bool :=
  match a with JUndefined => true | _ => false end.

(** [a == null] *)
Definition is_null (a : jsval) : bool :=
  match a with JUndefined | JNull => true | _ => false end.

(** ToBoolean *)
Definition to_boolean (a : jsval) : bool :=
  match a with
  | JUndefined | JNull => false
  | JBool b => b
  | JNum n => truthy n
  | JStr s => negb (is_nil s)
  end.

(** [Number(a)] *)
Definition ToNumber (a : jsval) : number :=
  match a with
  | JUndefined => NaN
  | JNull => Fin 0%Qc
  | JBool b => if b then Fin 1%Qc else Fin 0%Qc
  | JNum n => n
  | JStr s => StringToNumber s
  end.

(** [arr[i]] on an array of strings *)
Definition index (arr : list jsstring) (i : nat) : jsval :=
  match arr !! i with Some s => JStr s | None => JUndefined end.

(** ** What the platform supplies *)

Inductive FundPagePattern := rowRe | rowRe2 | tdRe.

Record Platform := {
  (** the time value of [new Date(s)], in milliseconds; [None] when [s] does
      not parse *)
  Date_parse : jsstring → option Z;
  (** the year of a time value in the local time zone *)
  local_year : Z → Z;
  Math_pow : number → number → number;
  (** [String(n)] of a number *)
  Number_toString : number → jsstring;
  (** the two captures of every match that repeated [exec] of a pattern of
      the fund page finds in a text *)
  exec_all : FundPagePattern → jsstring → list (jsstring * jsstring);
}.

(** ** Awaited promises *)

Inductive promise (A : Type) :=
| Resolved (a : A)
| Rejected (message : jsstring).
Arguments Resolved {A} a.
Arguments Rejected {A} message.

#[global] Instance promise_ret : MRet promise := λ A a, Resolved a.
#[global] Instance promise_bind : MBind promise := λ A B k p,
  match p with
  | Resolved a => k a
  | Rejected m => Rejected m
  end.

(** [try { p } catch { handler }] *)
Definition try_catch {A} (p : promise A) (handler : jsstring → promise A)
  : promise A :=
  match p with
  | Resolved a => Resolved a
  | Rejected m => handler m
  end.

(** The response of [fetch]: [res.ok], [res.status], and what reading the
    body ([res.json()], [res.text()]) gives. *)
Record Response (A : Type) := {
  res_ok : bool;
  res_status : Z;
  res_body : promise A;
}.
Arguments res_ok {A} r.
Arguments res_status {A} r.
Arguments res_body {A} r.

(** ** Dates and printing, over the platform *)

Existing Class Platform.

Section Builtins.
Context {P : Platform}.

(** [String(a)] *)
Definition ToString (a : jsval) : jsstring :=
  match a with
  | JUndefined => lit "undefined"
  | JNull => lit "null"
  | JBool b => if b then lit "true" else lit "false"
  | JNum n => Number_toString P n
  | JStr s => s
  end.

(** The time value of [new Date(a)]: a string is parsed, a number is
    clipped to the range of time and truncated. *)
Definition new_Date (a : jsval) : number :=
  match a with
  | JStr s =>
      match Date_parse P s with Some t => of_Z t | None => NaN end
  | JUndefined => NaN
  | other =>
      match ToNumber other with
      | Fin q =>
          if bool_decide (Qc_of_Z (-8640000000000000) ≤ q)%Qc
             && bool_decide (q ≤ Qc_of_Z 8640000000000000)%Qc
          then of_Z (if bool_decide (0 ≤ q)%Qc then Qfloor q else Qceiling q)
          else NaN
      | _ => NaN
      end
  end.

(** [d.getTime()] on a time value *)
Definition getTime (tv : number) : number := tv.

(** [d.getFullYear()] on a time value *)
Definition getFullYear (tv : number) : number :=
  match tv with
  | Fin q => of_Z (local_year P (Qfloor q))
  | _ => NaN
  end.

End Builtins.

(** ** eastmoney.ts: what the provider answers *)

(** The K-line payload ([EastMoneyKlineRes]). *)
Record KlineData := {
  kd_name : option jsstring;
  klines : option (list jsstring);
}.

Record EastMoneyKlineRes := { kline_data : option KlineData }.

(** A row of the data-center report ([DividendRow]), with the fields the
    code reads. *)
Record DividendRow := {
  CASH_PER_SHARE : jsval;
  row_cashPerShare : jsval;
  EX_DIVIDEND_DATE : jsval;
  exDividendDate : jsval;
  REPORT_DATE : jsval;
}.

(** [json?.data] of the data-center answer: an array of rows, an object
    whose [data] may be an array of rows, or nothing. *)
Inductive DatacenterJson :=
| DcRows (rows : list DividendRow)
| DcNested (rows : option (list DividendRow))
| DcAbsent.

(** A row of [fhyx] ([F10FhyxRow]). *)
Record F10FhyxRow := {
  IMPL_PLAN_PROFILE : option jsstring;
  fhyx_EX_DIVIDEND_DATE : jsval;
  NOTICE_DATE : jsval;
}.

(** A row of the legacy list [sgbh]; [meigupaixi] and [gonggaoriqi] are the
    fields whose names are "每股派息" and "公告日期". *)
Record SgbhRow := {
  sg_f03 : jsval;
  sg_cash : jsval;
  meigupaixi : jsval;
  sg_f01 : jsval;
  sg_year : jsval;
  gonggaoriqi : jsval;
}.

Record F10Json := {
  fhyx : option (list F10FhyxRow);
  data_sgbh_data : option (list SgbhRow);
  sgbh : option (list SgbhRow);
}.

(** A row of the quote answer. *)
Record QuoteRow := {
  q_CASH_PER_SHARE : jsval;
  q_cashPerShare : jsval;
  q_f03 : jsval;
  q_EX_DIVIDEND_DATE : jsval;
  q_exDate : jsval;
  q_f01 : jsval;
}.

(** The parsed quote answer: [json.data] when it is an array. *)
Record QuoteJson := { quote_data : option (list QuoteRow) }.

Inductive QuoteUrl :=
| ClistUrl (code : jsstring)
| FundArchivesUrl (symbol : jsstring).

(** The provider: what [fetch] gives for each request the code issues, and
    what [JSON.parse] makes of a text of the quote endpoints. *)
Record Upstream := {
  kline_api : jsstring → promise (Response EastMoneyKlineRes);
  datacenter_api : jsstring → promise (Response DatacenterJson);
  f10_api : jsstring → promise (Response F10Json);
  quote_api : QuoteUrl → promise (Response jsstring);
  fundpage_api : jsstring → promise (Response jsstring);
  JSON_parse : jsstring → promise QuoteJson;
}.
Existing Class Upstream.

Record PriceBar := {
  date : jsstring;
  open : number;
  close : number;
  high : number;
  low : number;
  volume : number;
}.

Record Kline := { name : option jsstring; list_ : list PriceBar }.

Record DatacenterEvent := {
  dc_year : number;
  dc_cashPerShare : number;
  dc_exDate : jsstring;
}.

Record DividendEvent := { year : number; cashPerShare : number }.

(** ** eastmoney.ts: price history and dividend sources *)

(** The pattern of [profile.match] in [parseCashPerShareFromProfile],
    anchored at the head of [s]: "10", then "派" or "送", then the capture
    (digits, an optional point, optional digits), then optional whitespace
    and an optional "元".  After the first digits everything is optional, so
    the greedy first attempt succeeds and nothing is given back. *)
Definition match_profile_here (s : jsstring) : option jsstring :=
  match s with
  | 0x31%N :: 0x30%N :: v :: t =>
      if includes [lit "派"; lit "送"] [v] then
        let '(ip, r1) := span is_digit t in
        if is_nil ip then None
        else
          match r1 with
          | 0x2E%N :: u => Some (ip ++ 0x2E%N :: (span is_digit u).1)
          | _ => Some ip
          end
      else None
  | _ => None
  end.

(** The capture of the leftmost match. *)
Fixpoint match_profile (s : jsstring) : option jsstring :=
  match match_profile_here s with
  | Some c => Some c
  | None =>
      match s with
      | [] => None
      | _ :: s' => match_profile s'
      end
  end.

(** [/不分配|不转增/i.test(profile)]; the letters have no case. *)
Definition test_no_distribution (profile : jsstring) : bool :=
  contains (lit "不分配") profile || contains (lit "不转增") profile.

Definition parseCashPerShareFromProfile (profile : jsstring) : option number :=
  if is_nil profile || test_no_distribution profile then None
  else
    match match_profile profile with
    | None => None
    | Some m1 =>
        let num := StringToNumber m1 in
        if isNaN num || le num (of_Z 0) then None
        else Some (div num (of_Z 10))
    end.

(** The pattern of [text.match] in [fetchEtfDividendFromQuote]: the whole
    text is word characters, an opening parenthesis, the capture (anything
    but line terminators) and a closing parenthesis. *)
Definition match_jsonp (text : jsstring) : option jsstring :=
  let '(w, r) := span is_word text in
  if is_nil w then None
  else
    match r with
    | 0x28%N :: t =>
        match reverse t with
        | 0x29%N :: inner_rev =>
            if forallb (λ c, negb (bool_decide
                  (c ∈ [0x0A; 0x0D; 0x2028; 0x2029]%N))) inner_rev
            then Some (reverse inner_rev) else None
        | _ => None
        end
    | _ => None
    end.

(** [year > 1990 && year < 2100] *)
Definition plausible_year (y : number) : bool :=
  gt y (of_Z 1990) && lt y (of_Z 2100).

(** [arr.length === 0] *)
Definition is_nil_list {A} (l : list A) : bool :=
  match l with [] => true | _ => false end.

Definition isLikelyEtfOrFund (securityCode : jsstring) : bool :=
  if negb (length securityCode =? 6)%nat then false
  else
    let first2 := slice0 2 securityCode in
    bool_decide (first2 = lit "51") || bool_decide (first2 = lit "56")
    || bool_decide (first2 = lit "58") || bool_decide (first2 = lit "15")
    || bool_decide (first2 = lit "16").

Section Eastmoney.
Context {P : Platform} {U : Upstream}.

(** One element of [klines.map(...)]. *)
Definition parse_kline (line : jsstring) : PriceBar :=
  let parts := split_on 0x2C line in
  {| date := default [] (head parts);
     open := ToNumber (index parts 1);
     close := ToNumber (index parts 2);
     high := ToNumber (index parts 3);
     low := ToNumber (index parts 4);
     volume :=
       let v := ToNumber (index parts 5) in
       if truthy v then v else of_Z 0 |}.

Definition fetchKline (secid : jsstring) : promise Kline :=
  res ← kline_api U secid;
  if negb (res_ok res)
  then Rejected (lit "K线请求失败: " ++ Number_toString P (of_Z (res_status res)))
  else
    json ← res_body res;
    match d ← kline_data json; ks ← klines d; Some (d, ks) with
    | Some (d, (_ :: _) as ks) =>
        Resolved {| name := kd_name d; list_ := map parse_kline ks |}
    | _ =>
        Rejected (lit "未返回K线数据，请检查股票代码是否正确（支持沪市/深市 A 股，如 600519、000001）")
    end.

(** The body of the loop of [fetchDividend]: the event a row contributes,
    [None] where the loop continues. *)
Definition dividend_row_event (r : DividendRow) : option DatacenterEvent :=
  let cash := nullish (CASH_PER_SHARE r) (row_cashPerShare r) in
  let exDate :=
    nullish (nullish (nullish (EX_DIVIDEND_DATE r) (exDividendDate r))
               (REPORT_DATE r)) (JStr []) in
  if negb (to_boolean exDate) || is_undefined cash then None
  else
    let num := ToNumber cash in
    if isNaN num || le num (of_Z 0) then None
    else
      let year := getFullYear (new_Date exDate) in
      if isNaN year then None
      else Some {| dc_year := year; dc_cashPerShare := num;
                   dc_exDate := slice0 10 (ToString exDate) |}.

Definition fetchDividend (securityCode : jsstring) (market : Market)
  : promise (list DatacenterEvent) :=
  res ← datacenter_api U securityCode;
  if negb (res_ok res) then Resolved []
  else
    json ← res_body res;
    let rows :=
      match json with
      | DcRows rows => rows
      | DcNested rows => default [] rows
      | DcAbsent => []
      end in
    Resolved (omap dividend_row_event rows).

Definition fhyx_row_event (row : F10FhyxRow) : option DividendEvent :=
  let profile := default [] (IMPL_PLAN_PROFILE row) in
  match parseCashPerShareFromProfile profile with
  | None => None
  | Some cash =>
      let exDate :=
        nullish (nullish (fhyx_EX_DIVIDEND_DATE row) (NOTICE_DATE row))
          (JStr []) in
      if negb (to_boolean exDate) then None
      else
        let year := getFullYear (new_Date (JStr (slice0 10 (ToString exDate)))) in
        if plausible_year year
        then Some {| year := year; cashPerShare := cash |} else None
  end.

Definition sgbh_row_event (row : SgbhRow) : option DividendEvent :=
  let pay := nullish (nullish (sg_f03 row) (sg_cash row)) (meigupaixi row) in
  let yearStr := nullish (nullish (sg_f01 row) (sg_year row)) (gonggaoriqi row) in
  if is_null pay then None
  else
    let num := ToNumber pay in
    if isNaN num || le num (of_Z 0) then None
    else
      let year :=
        match yearStr with
        | JNum n => n
        | _ =>
            if to_boolean yearStr then
              let y4 := JStr (slice0 4 (ToString yearStr)) in
              let y := getFullYear (new_Date y4) in
              if truthy y then y else ToNumber y4
            else of_Z 0
        end in
      if plausible_year year
      then Some {| year := year; cashPerShare := num |} else None.

(** [secid.split(".")[1] ?? ""] *)
Definition code_of_secid (secid : jsstring) : jsstring :=
  default [] (split_on 0x2E secid !! 1%nat).

Definition market_symbol (market : Market) (code : jsstring) : jsstring :=
  match market with sh => lit "SH" ++ code | sz => lit "SZ" ++ code end.

Definition fetchDividendF10 (secid : jsstring) (market : Market)
  : promise (list DividendEvent) :=
  let code := code_of_secid secid in
  let symbol := market_symbol market code in
  res ← f10_api U symbol;
  if negb (res_ok res) then Resolved []
  else
    json ← res_body res;
    let rows := default [] (fhyx json) in
    let result := omap fhyx_row_event rows in
    if negb (is_nil_list rows) && negb (is_nil_list result) then Resolved result
    else
      let legacy :=
        match data_sgbh_data json with
        | Some l => l
        | None => default [] (sgbh json)
        end in
      Resolved (omap sgbh_row_event legacy).

(** The test on one match of a pattern of the fund page. *)
Definition fund_match_event (m : jsstring * jsstring) : option DividendEvent :=
  let year := parseInt10 m.1 in
  let cash := parseFloat m.2 in
  if plausible_year year && negb (isNaN cash) && gt cash (of_Z 0)
  then Some {| year := year; cashPerShare := cash |} else None.

Definition fetchFundDividendFromPage (securityCode : jsstring)
  : promise (list DividendEvent) :=
  res ← fundpage_api U securityCode;
  if negb (res_ok res) then Resolved []
  else
    html ← res_body res;
    let result1 := omap fund_match_event (exec_all P rowRe html) in
    let result2 :=
      if is_nil_list result1
      then omap fund_match_event (exec_all P rowRe2 html) else result1 in
    let result3 :=
      if is_nil_list result2
      then omap fund_match_event (exec_all P tdRe html) else result2 in
    Resolved result3.

Definition quote_row_event (row : QuoteRow) : option DividendEvent :=
  let cash :=
    nullish (nullish (q_CASH_PER_SHARE row) (q_cashPerShare row)) (q_f03 row) in
  let date :=
    nullish (nullish (q_EX_DIVIDEND_DATE row) (q_exDate row)) (q_f01 row) in
  if negb (is_null cash) && to_boolean date then
    let year := getFullYear (new_Date (JStr (slice0 10 (ToString date)))) in
    let num := ToNumber cash in
    if plausible_year year && negb (isNaN num) && gt num (of_Z 0)
    then Some {| year := year; cashPerShare := num |} else None
  else None.

(** One turn of the loop over the endpoints, inside its [try]: [Some result]
    where the loop returns, [None] where it continues. *)
Definition quote_attempt (url : QuoteUrl) : promise (option (list DividendEvent)) :=
  res ← quote_api U url;
  if negb (res_ok res) then Resolved None
  else
    text ← res_body res;
    json ← try_catch (j ← JSON_parse U text; Resolved (Some j))
              (λ _, match match_jsonp text with
                    | Some inner => j ← JSON_parse U inner; Resolved (Some j)
                    | None => Resolved None
                    end);
    match json with
    | None => Resolved None
    | Some j =>
        match quote_data j with
        | Some rows =>
            let result := omap quote_row_event rows in
            if negb (is_nil_list result) then Resolved (Some result)
            else Resolved None
        | None => Resolved None
        end
    end.

Fixpoint quote_loop (urls : list QuoteUrl) : promise (list DividendEvent) :=
  match urls with
  | [] => Resolved []
  | url :: rest =>
      r ← try_catch (quote_attempt url) (λ _, Resolved None);
      match r with
      | Some result => Resolved result
      | None => quote_loop rest
      end
  end.

Definition fetchEtfDividendFromQuote (secid : jsstring) (market : Market)
  : promise (list DividendEvent) :=
  let code := code_of_secid secid in
  let symbol := market_symbol market code in
  quote_loop [ClistUrl code; FundArchivesUrl symbol].

End Eastmoney.

(** ** route.ts: the analysis endpoint *)

Record YearlyDividend := {
  yd_year : number;
  totalDividend : number;
  dividendYieldPercent : number;
  growthRatePercent : number;
  yearStartPrice : number;
  yearEndPrice : number;
}.

Record StockAnalysisResult := {
  symbol : jsstring;
  result_name : option jsstring;
  startDate : jsstring;
  endDate : jsstring;
  startPrice : number;
  endPrice : number;
  years : number;
  cagrPercent : number;
  yearlyDividends : list YearlyDividend;
  hasDividends : bool;
}.

(** What [NextResponse.json] carries: an analysis, or the object with the
    field [error] (and [symbol], where the code gives it). *)
Inductive Body :=
| ErrorBody (symbol : option jsstring) (error : jsstring)
| ResultBody (result : StockAnalysisResult).

Record HttpResponse := { status : Z; body : Body }.


#[global] Instance YearlyDividend_eq_dec : EqDecision YearlyDividend.
Proof. solve_decision. Defined.

#[global] Instance DividendEvent_eq_dec : EqDecision DividendEvent.
Proof. solve_decision. Defined.

Definition toDateStr (s : jsstring) : jsstring := slice0 10 s.

(** The comparator [(a, b) => a - b] does not ask for an exchange. *)
Definition by_difference (a b : number) : Prop :=
  gt (sub a b) (of_Z 0) = false.

#[global] Instance by_difference_dec : RelDecision by_difference.
Proof. intros a b. unfold by_difference. apply _. Defined.

Definition by_year (a b : YearlyDividend) : Prop :=
  by_difference (yd_year a) (yd_year b).

#[global] Instance by_year_dec : RelDecision by_year.
Proof. intros a b. unfold by_year. apply _. Defined.

Section Route.
Context {P : Platform} {U : Upstream}.

(** [new Date(row.date).getFullYear()] *)
Definition bar_year (row : PriceBar) : number :=
  getFullYear (new_Date (JStr (date row))).

(** The loop over the bars: [firstPriceByYear] and [lastPriceByYear]. *)
Definition price_by_year (bars : list PriceBar)
  : gmap number number * gmap number number :=
  foldl
    (λ '(firstPriceByYear, lastPriceByYear) row,
       let y := bar_year row in
       (match firstPriceByYear !! y with
        | Some _ => firstPriceByYear
        | None => <[y := close row]> firstPriceByYear
        end,
        <[y := close row]> lastPriceByYear))
    (∅, ∅) bars.

(** The loop over the dividend events: [byYear]. *)
Definition dividend_by_year (dividendList : list DividendEvent)
  : gmap number number :=
  foldl
    (λ byYear d,
       <[year d := add (default (of_Z 0) (byYear !! year d)) (cashPerShare d)]>
         byYear)
    ∅ dividendList.

(** The body of the loop that builds [yearlyDividends]. *)
Definition yearly_record (firstPriceByYear lastPriceByYear byYear
    : gmap number number) (year : number) : YearlyDividend :=
  let total := default (of_Z 0) (byYear !! year) in
  let yearStartPrice := firstPriceByYear !! year in
  let yearEndPrice := lastPriceByYear !! year in
  let dividendYieldPercent :=
    match yearEndPrice with
    | Some e =>
        if truthy e && gt e (of_Z 0)
        then mul (div total e) (of_Z 100) else of_Z 0
    | None => of_Z 0
    end in
  let growthRatePercent :=
    match yearStartPrice, yearEndPrice with
    | Some s, Some e =>
        if truthy s && gt s (of_Z 0) && truthy e
        then mul (div (sub e s) s) (of_Z 100) else of_Z 0
    | _, _ => of_Z 0
    end in
  {| yd_year := year;
     totalDividend := round2 total;
     dividendYieldPercent := round2 dividendYieldPercent;
     growthRatePercent := round2 growthRatePercent;
     yearStartPrice := round2 (default (of_Z 0) yearStartPrice);
     yearEndPrice := round2 (default (of_Z 0) yearEndPrice) |}.

(** [yearlyDividends], from the bars and the dividend events.
    [Array.prototype.sort] is a merge sort here. *)
Definition yearly_dividends (bars : list PriceBar)
    (dividendList : list DividendEvent) : list YearlyDividend :=
  let '(firstPriceByYear, lastPriceByYear) := price_by_year bars in
  let byYear := dividend_by_year dividendList in
  let allYears : gset number := dom firstPriceByYear ∪ dom byYear in
  merge_sort by_year
    (yearly_record firstPriceByYear lastPriceByYear byYear
       <$> merge_sort by_difference (elements allYears)).

(** The chain of dividend sources of [GET]: [dividendList]. *)
Definition dividend_list (secid : jsstring) (market : Market)
    (securityCode : jsstring) : promise (list DividendEvent) :=
  fromDatacenter ← fetchDividend securityCode market;
  dividendList ←
    (if negb (is_nil_list fromDatacenter)
     then Resolved (map (λ d, {| year := dc_year d;
                                 cashPerShare := dc_cashPerShare d |})
                      fromDatacenter)
     else fetchDividendF10 secid market);
  if is_nil_list dividendList && isLikelyEtfOrFund securityCode then
    fromQuote ← fetchEtfDividendFromQuote secid market;
    if negb (is_nil_list fromQuote) then Resolved fromQuote
    else fetchFundDividendFromPage securityCode
  else Resolved dividendList.

(** [(endDate - startDate)] in years of 365.25 days. *)
Definition years_between (startDate endDate : jsstring) : number :=
  div (sub (getTime (new_Date (JStr endDate)))
           (getTime (new_Date (JStr startDate))))
      (of_Z 31557600000).

Definition cagr_percent (startPrice endPrice years : number) : number :=
  let cagr :=
    if gt years (of_Z 0) && gt startPrice (of_Z 0)
    then sub (Math_pow P (div endPrice startPrice) (div (of_Z 1) years))
             (of_Z 1)
    else of_Z 0 in
  mul cagr (of_Z 100).

(** The [try] block of [GET]. *)
Definition analyse (symbol : jsstring) (sec : SecId) : promise HttpResponse :=
  let secid := secid sec in
  let market := market sec in
  let securityCode := default symbol (split_on 0x2E secid !! 1%nat) in
  kline ← fetchKline secid;
  let bars := list_ kline in
  match bars with
  | [] =>
      Resolved {| status := 200;
                  body := ErrorBody (Some symbol)
                            (lit "未获取到K线数据，请检查股票代码") |}
  | first :: _ =>
      let last := List.last bars first in
      let startPrice := close first in
      let endPrice := close last in
      let startDate := date first in
      let endDate := date last in
      let years := years_between startDate endDate in
      let cagrPercent := cagr_percent startPrice endPrice years in
      dividendList ← dividend_list secid market securityCode;
      let yearlyDividends := yearly_dividends bars dividendList in
      Resolved
        {| status := 200;
           body := ResultBody
             {| symbol := securityCode;
                result_name := name kline;
                startDate := toDateStr startDate;
                endDate := toDateStr endDate;
                startPrice := round2 startPrice;
                endPrice := round2 endPrice;
                years := round2 years;
                cagrPercent := round2 cagrPercent;
                yearlyDividends := yearlyDividends;
                hasDividends := negb (is_nil_list yearlyDividends) |} |}
  end.

(** [GET]; [query] is [searchParams.get("symbol")]. *)
Definition GET (query : option jsstring) : HttpResponse :=
  let symbol := default [] (trim <$> query) in
  if is_nil symbol then
    {| status := 400;
       body := ErrorBody None
                 (lit "请提供股票代码，例如 symbol=600519 或 symbol=000001") |}
  else
    match toSecId symbol with
    | None =>
        {| status := 400;
           body := ErrorBody (Some symbol)
                     (lit "无法识别的股票代码。请输入 6 位 A 股代码（如 600519、000001）") |}
    | Some sec =>
        match analyse symbol sec with
        | Resolved response => response
        | Rejected message =>
            {| status := 500;
               body := ErrorBody (Some symbol)
                         (lit "获取数据失败：" ++ message) |}
        end
    end.

End Route.

(** ** A platform and a provider to run the code on *)

Module Sample.

(** Days since 1970-01-01 of a date of the proleptic Gregorian calendar. *)
Definition days_from_civil (y m d : Z) : Z :=
  let y' := if m <=? 2 then y - 1 else y in
  let era := y' `div` 400 in
  let yoe := y' - era * 400 in
  let doy := (153 * (if 2 <? m then m - 3 else m + 9) + 2) `div` 5 + d - 1 in
  let doe := yoe * 365 + yoe `div` 4 - yoe `div` 100 + doy in
  era * 146097 + doe - 719468.

(** The year of a day counted from 1970-01-01. *)
Definition year_of_days (days : Z) : Z :=
  let z := days + 719468 in
  let era := z `div` 146097 in
  let doe := z - era * 146097 in
  let yoe :=
    (doe - doe `div` 1460 + doe `div` 36524 - doe `div` 146096) `div` 365 in
  let doy := doe - (365 * yoe + yoe `div` 4 - yoe `div` 100) in
  let mp := (5 * doy + 2) `div` 153 in
  let m := if mp <? 10 then mp + 3 else mp - 9 in
  yoe + era * 400 + (if m <=? 2 then 1 else 0).

(** The date-only forms of the ISO format: [YYYY] and [YYYY-MM-DD], read
    as midnight UTC; every other text is an invalid date. *)
Definition parse_iso_date (s : jsstring) : option Z :=
  match s with
  | [y1; y2; y3; y4] =>
      if forallb is_digit s
      then Some (days_from_civil (digits_value 10 s) 1 1 * 86400000)
      else None
  | [y1; y2; y3; y4; 0x2D%N; m1; m2; 0x2D%N; d1; d2] =>
      if forallb is_digit [y1; y2; y3; y4; m1; m2; d1; d2] then
        let m := digits_value 10 [m1; m2] in
        let d := digits_value 10 [d1; d2] in
        if (1 <=? m) && (m <=? 12) && (1 <=? d) && (d <=? 31)
        then Some (days_from_civil (digits_value 10 [y1; y2; y3; y4]) m d
                   * 86400000)
        else None
      else None
  | _ => None
  end.

(** A power that is exact where the exponent is an integer or the base is
    one, and [NaN] elsewhere. *)
Definition pow_model (x y : number) : number :=
  match x, y with
  | Fin b, Fin e =>
      if bool_decide (b = 1%Qc) then Fin 1%Qc
      else if (Zpos (Qden e) =? 1) then
        let n := Z.abs_nat (Qnum e) in
        if 0 <=? Qnum e then Fin (b ^ n)%Qc
        else if bool_decide (b = 0%Qc) then PosInf
        else Fin (1 / b ^ n)%Qc
      else NaN
  | _, _ => NaN
  end.

(** A number prints as its integer part in decimal: exact on the integers,
    such as the status of a response. *)
Definition show_number (n : number) : jsstring :=
  match n with
  | NaN => lit "NaN"
  | PosInf => lit "Infinity"
  | NegInf => lit "-Infinity"
  | Fin q => lit (pretty (Qfloor q))
  end.

(** A platform in the time zone [offset] milliseconds east of Greenwich,
    whose regular-expression engine finds the patterns of the fund page
    nowhere. *)
Definition platform (offset : Z) : Platform :=
  {| Date_parse := parse_iso_date;
     local_year := λ t, year_of_days ((t + offset) `div` 86400000);
     Math_pow := pow_model;
     Number_toString := show_number;
     exec_all := λ _ _, [] |}.

(** [fetch] rejects: the network is down. *)
Definition unreachable {A} : promise (Response A) :=
  Rejected (lit "fetch failed").

(** A response of status 200 with the given body. *)
Definition ok_response {A} (a : A) : promise (Response A) :=
  Resolved {| res_ok := true; res_status := 200; res_body := Resolved a |}.

(** A response of status 404. *)
Definition not_found {A} : promise (Response A) :=
  Resolved {| res_ok := false; res_status := 404;
              res_body := Rejected (lit "Unexpected token") |}.

(** A provider that answers the K-line request successfully with [lines],
    the data-center request with [datacenter] and every other request with
    [others]; none of its texts is JSON. *)
Definition provider (lines : option (list jsstring))
    (datacenter : promise (Response DatacenterJson))
    (others : ∀ A, promise (Response A)) : Upstream :=
  {| kline_api := λ _,
       ok_response {| kline_data := Some {| kd_name := Some (lit "sample");
                                            klines := lines |} |};
     datacenter_api := λ _, datacenter;
     f10_api := λ _, others _;
     quote_api := λ _, others _;
     fundpage_api := λ _, others _;
     JSON_parse := λ _, Rejected (lit "Unexpected token") |}.

Definition row (cash exDate : jsstring) : DividendRow :=
  {| CASH_PER_SHARE := JStr cash; row_cashPerShare := JUndefined;
     EX_DIVIDEND_DATE := JStr exDate; exDividendDate := JUndefined;
     REPORT_DATE := JUndefined |}.

End Sample.

(** ** The yearly engine in the words of the specification *)

Section EngineSpec.
Context {P : Platform}.

(** The bars of a calendar year, in the order of the series. *)
Definition bars_of_year (y : number) (bars : list PriceBar) : list PriceBar :=
  filter (λ row, bar_year row = y) bars.

(** The close of the first bar observed in the year. *)
Definition first_close (y : number) (bars : list PriceBar) : option number :=
  close <$> head (bars_of_year y bars).

(** The close of the last bar observed in the year. *)
Definition last_close (y : number) (bars : list PriceBar) : option number :=
  close <$> last (bars_of_year y bars).

(** The sum of a sequence of numbers, added from the left. *)
Definition sum_numbers (l : list number) : number := foldl add (of_Z 0) l.

(** The sum of [cashPerShare] over the events of a year. *)
Definition dividends_of_year (y : number) (dividendList : list DividendEvent)
  : number :=
  sum_numbers (cashPerShare <$> filter (λ d, year d = y) dividendList).


(** The growth of a year with the further case of the code: zero as well
    when the end price is zero or not a number. *)
Definition growth_rate (yearStart yearEnd : option number) : number :=
  match yearStart, yearEnd with
  | Some s, Some e =>
      if gt s (of_Z 0) && truthy e
      then mul (div (sub e s) s) (of_Z 100) else of_Z 0
  | _, _ => of_Z 0
  end.

(** The dividend yield of a year: the total dividend over the end price, in
    percent; zero when the end price is missing or not positive. *)
Definition dividend_yield (total : number) (yearEnd : option number) : number :=
  match yearEnd with
  | Some e =>
      if gt e (of_Z 0) then mul (div total e) (of_Z 100) else of_Z 0
  | None => of_Z 0
  end.

End EngineSpec.

Module Worlds.
Import Sample.

(** Shanghai or Shenzhen: eight hours east of Greenwich. *)
Definition china : Platform := platform 28800000.

(** Two bars of 2020, closing at 10 and at 12. *)
Definition year_2020 : list jsstring :=
  [lit "2020-01-02,9.8,10,10.2,9.7,1000"; lit "2020-12-31,11.9,12,12.1,11.8,1200"].


(** Price history, and a data center that cannot be reached. *)
Definition datacenter_down : Upstream :=
  provider (Some year_2020) unreachable (λ A, not_found).

(** Price history, and no dividend source that knows the security. *)
Definition no_dividends : Upstream :=
  provider (Some year_2020) not_found (λ A, not_found).

(** Price history, and a dividend of 0.5 in 2020. *)
Definition one_dividend : Upstream :=
  provider (Some year_2020)
    (ok_response (DcRows [row (lit "0.5") (lit "2020-06-30")]))
    (λ A, not_found).

(** A data center that reports a dividend of 1985. *)
Definition old_dividend : Upstream :=
  provider (Some year_2020)
    (ok_response (DcRows [row (lit "0.5") (lit "1985-06-28")]))
    (λ A, not_found).

(** Two bars with the same close, a year and a day apart. *)
Definition flat : Upstream :=
  provider
    (Some [lit "2020-01-02,10,10,10,10,1000"; lit "2021-01-04,10,10,10,10,1000"])
    (ok_response (DcRows [])) (λ A, not_found).


(** The two bars of 2020. *)
Definition bars_2020 : list PriceBar := parse_kline <$> year_2020.

Definition dividend (y : Z) (cash : Q) : DividendEvent :=
  {| year := of_Z y; cashPerShare := Fin (Q2Qc cash) |}.

(** The record of the year [y] that the engine builds on the platform
    [china]. *)
Definition record_of (y : Z) (bars : list PriceBar)
    (dividendList : list DividendEvent) : YearlyDividend :=
  let '(firstPriceByYear, lastPriceByYear) := @price_by_year china bars in
  yearly_record firstPriceByYear lastPriceByYear
    (dividend_by_year dividendList) (of_Z y).

End Worlds.

(** ** The dividend events in the words of the specification *)

(** The amount is a number greater than 0 and the year lies strictly
    between 1990 and 2100. *)
Definition plausible_event (e : DividendEvent) : Prop :=
  gt (cashPerShare e) (of_Z 0) = true
  ∧ gt (year e) (of_Z 1990) = true ∧ lt (year e) (of_Z 2100) = true.

(** The amount is a number greater than 0 and the year is a number. *)
Definition dated_event (e : DatacenterEvent) : Prop :=
  gt (dc_cashPerShare e) (of_Z 0) = true ∧ isNaN (dc_year e) = false.

(** ** Further providers to run the code on *)

Module Cases.
Import Sample.

(** A provider whose K-line endpoint answers every request with [kline]
    and whose dividend sources know no security. *)
Definition with_kline (kline : promise (Response EastMoneyKlineRes))
  : Upstream :=
  {| kline_api := λ _, kline;
     datacenter_api := λ _, not_found;
     f10_api := λ _, not_found;
     quote_api := λ _, not_found;
     fundpage_api := λ _, not_found;
     JSON_parse := λ _, Rejected (lit "Unexpected token") |}.

(** A provider with the two bars of 2020 whose dividend sources answer as
    given; a text is JSON when [parse] knows it. *)
Definition with_sources
    (datacenter : promise (Response DatacenterJson))
    (f10 : promise (Response F10Json))
    (quote : QuoteUrl → promise (Response jsstring))
    (fundpage : promise (Response jsstring))
    (parse : jsstring → promise QuoteJson) : Upstream :=
  {| kline_api := λ _,
       ok_response {| kline_data := Some {| kd_name := None;
                                            klines := Some Worlds.year_2020 |} |};
     datacenter_api := λ _, datacenter;
     f10_api := λ _, f10;
     quote_api := quote;
     fundpage_api := λ _, fundpage;
     JSON_parse := parse |}.

End Cases.

(** ** Further notions for the properties *)

(** [0 <= a] *)
Definition nonneg_number (a : number) : Prop := le (of_Z 0) a = true.

Module QuoteCases.
Import Sample.

(** A row of the quote answer: 0.02 per share on 2022-12-18. *)
Definition quote_row : QuoteRow :=
  {| q_CASH_PER_SHARE := JNum (Fin (Q2Qc (2 # 100)));
     q_cashPerShare := JUndefined; q_f03 := JUndefined;
     q_EX_DIVIDEND_DATE := JStr (lit "2022-12-18"); q_exDate := JUndefined;
     q_f01 := JUndefined |}.

(** A provider whose quote endpoints answer with a text wrapped in a call
    of [cb]; only the text between the parentheses is JSON. *)
Definition jsonp : Upstream :=
  Cases.with_sources not_found not_found
    (λ _, ok_response (lit "cb(" ++ lit "{data}" ++ lit ")")) not_found
    (λ text, if bool_decide (text = lit "{data}")
             then Resolved {| quote_data := Some [quote_row] |}
             else Rejected (lit "Unexpected token")).

End QuoteCases.

(** ** The page: what arrives from the endpoint and the simulated investment *)

(** What the browser supplies to the page: the platform of its own, the
    upper case of a string, the time value of [new Date(year, 0, 1)], and
    what [fetch] of the endpoint and reading its JSON give for a symbol. *)
Record Browser := {
  browser_platform : Platform;
  toUpperCase : jsstring → jsstring;
  Date_year_start : number → number;
  request : jsstring → promise HttpResponse;
}.

(** A number after [JSON.stringify] and [JSON.parse]: a finite number is
    itself, NaN and the infinities are [null]. *)
Definition json_number (n : number) : jsval :=
  if is_finite n then JNum n else JNull.

(** A row of [yearlyDividends] as the page holds it. *)
Record ClientRow := {
  c_year : jsval;
  c_totalDividend : jsval;
  c_dividendYieldPercent : jsval;
  c_growthRatePercent : jsval;
  c_yearStartPrice : jsval;
  c_yearEndPrice : jsval;
}.

(** The state [result] of the page: a field that the body lacks is
    [undefined]. *)
Record ClientResult := {
  c_symbol : jsval;
  c_name : jsval;
  c_startDate : jsval;
  c_endDate : jsval;
  c_startPrice : jsval;
  c_endPrice : jsval;
  c_years : jsval;
  c_cagrPercent : jsval;
  c_yearlyDividends : option (list ClientRow);
  c_hasDividends : jsval;
  c_error : jsval;
}.

Definition json_row (row : YearlyDividend) : ClientRow :=
  {| c_year := json_number (yd_year row);
     c_totalDividend := json_number (totalDividend row);
     c_dividendYieldPercent := json_number (dividendYieldPercent row);
     c_growthRatePercent := json_number (growthRatePercent row);
     c_yearStartPrice := json_number (yearStartPrice row);
     c_yearEndPrice := json_number (yearEndPrice row) |}.

Definition json_optional (s : option jsstring) : jsval :=
  match s with Some x => JStr x | None => JUndefined end.

(** [await res.json()] of a body of the endpoint. *)
Definition json_body (b : Body) : ClientResult :=
  match b with
  | ResultBody r =>
      {| c_symbol := JStr (symbol r);
         c_name := json_optional (result_name r);
         c_startDate := JStr (startDate r);
         c_endDate := JStr (endDate r);
         c_startPrice := json_number (startPrice r);
         c_endPrice := json_number (endPrice r);
         c_years := json_number (years r);
         c_cagrPercent := json_number (cagrPercent r);
         c_yearlyDividends := Some (json_row <$> yearlyDividends r);
         c_hasDividends := JBool (hasDividends r);
         c_error := JUndefined |}
  | ErrorBody s e =>
      {| c_symbol := json_optional s;
         c_name := JUndefined;
         c_startDate := JUndefined;
         c_endDate := JUndefined;
         c_startPrice := JUndefined;
         c_endPrice := JUndefined;
         c_years := JUndefined;
         c_cagrPercent := JUndefined;
         c_yearlyDividends := None;
         c_hasDividends := JUndefined;
         c_error := JStr e |}
  end.

(** [res.ok] *)
Definition response_ok (response : HttpResponse) : bool :=
  (200 <=? status response) && (status response <=? 299).

(** The value that [handleSubmit] gives to [setResult] for an answer of the
    endpoint. *)
Definition received (code : jsstring) (response : HttpResponse) : ClientResult :=
  let data := json_body (body response) in
  if negb (response_ok response) then
    {| c_symbol := JStr code;
       c_name := c_name data;
       c_startDate := c_startDate data;
       c_endDate := c_endDate data;
       c_startPrice := c_startPrice data;
       c_endPrice := c_endPrice data;
       c_years := c_years data;
       c_cagrPercent := c_cagrPercent data;
       c_yearlyDividends := c_yearlyDividends data;
       c_hasDividends := c_hasDividends data;
       c_error := c_error data |}
  else data.

(** [principalInput === "" ? 0 : Number(principalInput) || 0] *)
Definition principal_of (principalInput : jsstring) : number :=
  if is_nil principalInput then of_Z 0
  else
    let n := StringToNumber principalInput in
    if truthy n then n else of_Z 0.

Record Simulation := {
  endValue : number;
  totalCashReceived : number;
  totalReturn : number;
  totalReturnPercent : number;
  sim_cagrPercent : number;
}.

(** What the simulation returns: [null], [{ canSimulate: false }], or the
    figures with [canSimulate: true]. *)
Inductive SimulationResult :=
| NoSimulation
| CannotSimulate
| CanSimulate (figures : Simulation).

(** [r.yearStartPrice > 0] *)
Definition start_price_positive (r : ClientRow) : Prop :=
  gt (ToNumber (c_yearStartPrice r)) (of_Z 0) = true.

#[global] Instance start_price_positive_dec r : Decision (start_price_positive r).
Proof. unfold start_price_positive. apply _. Defined.

(** One turn of the loop over the years: the shares and the cash received
    after the year of [row]. *)
Definition simulate_year (reinvest : bool) (state : number * number)
    (row : ClientRow) : number * number :=
  let '(shares, totalCashReceived) := state in
  let cash := mul shares (ToNumber (c_totalDividend row)) in
  if reinvest && gt (ToNumber (c_yearEndPrice row)) (of_Z 0)
  then (add shares (div cash (ToNumber (c_yearEndPrice row))), totalCashReceived)
  else (shares, add totalCashReceived cash).

Section Page.
Context (B : Browser).

(** [handleSubmit]: the new state [result], or [None] where the function
    returns before it sets one. *)
Definition handleSubmit (symbol : jsstring) : option ClientResult :=
  let code := toUpperCase B (trim symbol) in
  if is_nil code then None
  else
    Some
      match request B code with
      | Resolved response => received code response
      | Rejected message =>
          {| c_symbol := JStr code;
             c_name := JUndefined;
             c_startDate := JStr [];
             c_endDate := JStr [];
             c_startPrice := JNum (of_Z 0);
             c_endPrice := JNum (of_Z 0);
             c_years := JNum (of_Z 0);
             c_cagrPercent := JNum (of_Z 0);
             c_yearlyDividends := Some [];
             c_hasDividends := JBool false;
             c_error := JStr message |}
      end.

(** The simulation of the page; it throws where [result.yearlyDividends]
    is [undefined]. *)
Definition simulation (result : option ClientResult) (principal : number)
    (reinvest : bool) : promise SimulationResult :=
  match result with
  | None => Resolved NoSimulation
  | Some result =>
      if to_boolean (c_error result) then Resolved NoSimulation
      else
        match c_yearlyDividends result with
        | None =>
            Rejected (lit "Cannot read properties of undefined (reading 'length')")
        | Some rows =>
            if is_nil_list rows then Resolved NoSimulation
            else
              match list_find start_price_positive rows with
              | None => Resolved CannotSimulate
              | Some (startIndex, entry) =>
                  let buyPrice := ToNumber (c_yearStartPrice entry) in
                  if le principal (of_Z 0) || le buyPrice (of_Z 0)
                  then Resolved CannotSimulate
                  else
                    let '(shares, totalCashReceived) :=
                      foldl (simulate_year reinvest)
                        (div principal buyPrice, of_Z 0)
                        (drop startIndex rows) in
                    let endValue := mul shares (ToNumber (c_endPrice result)) in
                    let totalReturn :=
                      sub (add endValue totalCashReceived) principal in
                    let totalReturnPercent :=
                      mul (div totalReturn principal) (of_Z 100) in
                    let totalTerminal := add endValue totalCashReceived in
                    let entryYear := ToNumber (c_year entry) in
                    let endDateMs :=
                      getTime (@new_Date (browser_platform B) (c_endDate result)) in
                    let entryDateMs := getTime (Date_year_start B entryYear) in
                    let holdingYears :=
                      div (sub endDateMs entryDateMs) (of_Z 31557600000) in
                    let cagrPercent :=
                      if gt holdingYears (of_Z 0) && gt principal (of_Z 0)
                      then mul (sub (Math_pow (browser_platform B)
                                       (div totalTerminal principal)
                                       (div (of_Z 1) holdingYears))
                                    (of_Z 1))
                               (of_Z 100)
                      else of_Z 0 in
                    Resolved (CanSimulate
                      {| endValue := endValue;
                         totalCashReceived := totalCashReceived;
                         totalReturn := totalReturn;
                         totalReturnPercent := totalReturnPercent;
                         sim_cagrPercent := cagrPercent |})
              end
        end
  end.

End Page.

(** ** A browser to run the page on *)

Module PageCases.
Import Sample.

(** The upper case of the letters a to z. *)
Definition upper (c : N) : N :=
  if ((0x61 <=? c) && (c <=? 0x7A))%N then (c - 0x20)%N else c.

(** The start of a year from 100 on, eight hours east of Greenwich. *)
Definition china_year_start (y : number) : number :=
  match y with
  | Fin q =>
      if (Zpos (Qden q) =? 1) && (100 <=? Qnum q)
      then of_Z (days_from_civil (Qnum q) 1 1 * 86400000 - 28800000)
      else NaN
  | _ => NaN
  end.

(** A browser in China whose requests are answered by the endpoint on the
    provider [U]. *)
Definition browser (U : Upstream) : Browser :=
  {| browser_platform := Worlds.china;
     toUpperCase := map upper;
     Date_year_start := china_year_start;
     request := λ code, Resolved (@GET Worlds.china U (Some code)) |}.

(** The state of the page after the endpoint on the provider [U] has
    answered the request for 600519. *)
Definition answer (U : Upstream) : ClientResult :=
  received (lit "600519") (@GET Worlds.china U (Some (lit "600519"))).

(** A browser whose requests fail. *)
Definition offline : Browser :=
  {| browser_platform := Worlds.china;
     toUpperCase := map upper;
     Date_year_start := china_year_start;
     request := λ _, Rejected (lit "Failed to fetch") |}.

End PageCases.

(** ** Notions for the properties of the page *)

(** The cash that [shares] shares receive over the years of [rows]. *)
Definition cash_of_shares (shares : number) (rows : list ClientRow) : number :=
  foldl (λ total row, add total (mul shares (ToNumber (c_totalDividend row))))
    (of_Z 0) rows.

(** * Properties *)

(** ** Properties of the ticker resolver *)

Lemma match_six_digits_Some raw code :
  match_six_digits raw = Some code ↔ six_ascii_digits raw ∧ code = raw.
Proof.
  unfold match_six_digits, six_ascii_digits.
  destruct (length raw =? 6)%nat eqn:Hlen; simpl.
  - apply Nat.eqb_eq in Hlen.
    destruct (forallb is_digit raw) eqn:Hd.
    + split; [intros [= <-]|intros [_ ->]; done].
      split; [split; [done|]|done].
      rewrite forallb_forall in Hd. apply Forall_forall. intros c Hc.
      apply list_elem_of_In, Hd in Hc. unfold is_digit in Hc.
      apply andb_true_iff in Hc as [?%N.leb_le ?%N.leb_le]. lia.
    + split; [done|]. intros [[_ Hall] _]. exfalso.
      assert (forallb is_digit raw = true) as Ht; [|congruence].
      apply forallb_forall. intros c Hc. apply list_elem_of_In in Hc.
      rewrite Forall_forall in Hall. apply Hall in Hc. unfold is_digit.
      apply andb_true_iff. split; apply N.leb_le; lia.
  - apply Nat.eqb_neq in Hlen. split; [done|]. intros [[? _] _]. done.
Qed.





(** ** Numbers *)

Lemma of_Z_0 : of_Z 0 = Fin 0%Qc.
Proof. unfold of_Z. f_equal. by apply Qc_is_canon. Qed.

Lemma gt_0_truthy a : gt a (of_Z 0) = true → truthy a = true.
Proof.
  rewrite of_Z_0. destruct a as [| | |q]; try done.
  unfold gt, lt, truthy.
  rewrite !bool_decide_eq_true. intros Hq ->. by apply Qclt_not_eq in Hq.
Qed.

Lemma round2_0 : round2 (of_Z 0) = of_Z 0.
Proof. by compute_done. Qed.

(** ** The loops of the yearly engine *)

Section Engine.
Context {P : Platform}.

Lemma price_by_year_snoc bars row :
  price_by_year (bars ++ [row]) =
    let '(f, l) := price_by_year bars in
    let y := bar_year row in
    (match f !! y with Some _ => f | None => <[y := close row]> f end,
     <[y := close row]> l).
Proof. unfold price_by_year. rewrite foldl_snoc. by destruct (foldl _ _ _). Qed.

Lemma first_price_lookup bars y :
  (price_by_year bars).1 !! y = first_close y bars.
Proof.
  unfold first_close, bars_of_year.
  induction bars as [|row bars IH] using rev_ind; [done|].
  rewrite price_by_year_snoc, filter_app.
  destruct (price_by_year bars) as [f l]; simpl in *.
  rewrite filter_cons, filter_nil.
  destruct (decide (bar_year row = y)) as [->|Hne].
  - destruct (f !! y) as [c|] eqn:Hf.
    + rewrite Hf. destruct (filter _ bars); [done|]. by simpl in *.
    + rewrite lookup_insert_eq. destruct (filter _ bars); [done|]. by simpl in *.
  - rewrite app_nil_r.
    destruct (f !! bar_year row); [done|]. by rewrite lookup_insert_ne.
Qed.

Lemma last_price_lookup bars y :
  (price_by_year bars).2 !! y = last_close y bars.
Proof.
  unfold last_close, bars_of_year.
  induction bars as [|row bars IH] using rev_ind; [done|].
  rewrite price_by_year_snoc, filter_app.
  destruct (price_by_year bars) as [f l]; simpl in *.
  rewrite filter_cons, filter_nil.
  destruct (decide (bar_year row = y)) as [->|Hne].
  - by rewrite lookup_insert_eq, last_snoc.
  - by rewrite app_nil_r, lookup_insert_ne.
Qed.

Lemma dividend_by_year_lookup ds y :
  dividend_by_year ds !! y =
    if is_nil_list (filter (λ d, year d = y) ds) then None
    else Some (dividends_of_year y ds).
Proof.
  unfold dividends_of_year, sum_numbers, dividend_by_year.
  induction ds as [|d ds IH] using rev_ind; [done|].
  rewrite foldl_snoc, filter_app, filter_cons, filter_nil.
  destruct (decide (year d = y)) as [->|Hne].
  - rewrite lookup_insert_eq, IH, fmap_app.
    change (cashPerShare <$> [d]) with [cashPerShare d]. rewrite foldl_snoc.
    destruct (filter _ ds); by simpl.
  - by rewrite lookup_insert_ne, app_nil_r.
Qed.

Lemma dividend_by_year_total ds y :
  default (of_Z 0) (dividend_by_year ds !! y) = dividends_of_year y ds.
Proof.
  rewrite dividend_by_year_lookup. unfold dividends_of_year.
  by destruct (filter _ ds).
Qed.

Lemma elem_of_bars_years bars y :
  is_Some ((price_by_year bars).1 !! y) ↔ y ∈ bar_year <$> bars.
Proof.
  rewrite first_price_lookup. unfold first_close, bars_of_year.
  rewrite list_elem_of_fmap. split.
  - intros [c Hc]. destruct (filter _ bars) as [|row rest] eqn:Hf; [done|].
    exists row. assert (row ∈ filter (λ row, bar_year row = y) bars) as Hin
      by (rewrite Hf; left).
    apply list_elem_of_filter in Hin as [<- ?]. done.
  - intros (row & -> & Hin).
    assert (row ∈ filter (λ r, bar_year r = bar_year row) bars) as Hin'
      by (by apply list_elem_of_filter).
    destruct (filter _ bars); [by apply elem_of_nil in Hin'|]. by eexists.
Qed.

End Engine.

Section Records.
Context {P : Platform}.

Lemma years_of_records f l b (ys : list number) :
  yd_year <$> (yearly_record f l b <$> ys) = ys.
Proof. induction ys as [|y ys IH]; [done|]. csimpl. by rewrite IH. Qed.

Lemma yearly_dividends_perm bars ds :
  yearly_dividends bars ds ≡ₚ
    yearly_record (price_by_year bars).1 (price_by_year bars).2
      (dividend_by_year ds)
    <$> elements (dom (price_by_year bars).1 ∪ dom (dividend_by_year ds)).
Proof.
  unfold yearly_dividends. destruct (price_by_year bars) as [f l]. simpl.
  by rewrite !merge_sort_Permutation.
Qed.

Lemma elem_of_dividend_years ds y :
  y ∈ dom (dividend_by_year ds) ↔ y ∈ year <$> ds.
Proof.
  rewrite elem_of_dom, dividend_by_year_lookup, list_elem_of_fmap. split.
  - destruct (filter _ ds) as [|d rest] eqn:Hf; [by intros [? ?]|]. intros _.
    exists d. assert (d ∈ filter (λ d, year d = y) ds) as Hin
      by (rewrite Hf; left).
    by apply list_elem_of_filter in Hin as [<- ?].
  - intros (d & -> & Hin).
    assert (d ∈ filter (λ d', year d' = year d) ds) as Hin'
      by (by apply list_elem_of_filter).
    destruct (filter _ ds); [by apply elem_of_nil in Hin'|]. by eexists.
Qed.

(** The year axis: the years of the bars and the years of the events. *)
Lemma elem_of_year_axis bars ds y :
  y ∈ yd_year <$> yearly_dividends bars ds ↔
    y ∈ bar_year <$> bars ∨ y ∈ year <$> ds.
Proof.
  rewrite yearly_dividends_perm, years_of_records.
  rewrite elem_of_elements, elem_of_union.
  by rewrite elem_of_dom, elem_of_bars_years, elem_of_dividend_years.
Qed.

Lemma year_axis_NoDup bars ds : NoDup (yd_year <$> yearly_dividends bars ds).
Proof.
  rewrite yearly_dividends_perm, years_of_records. apply NoDup_elements.
Qed.

(** Every record, in the words of the specification. *)
Lemma yearly_dividends_record bars ds r :
  r ∈ yearly_dividends bars ds →
  let y := yd_year r in
  totalDividend r = round2 (dividends_of_year y ds)
  ∧ dividendYieldPercent r =
      round2 (dividend_yield (dividends_of_year y ds) (last_close y bars))
  ∧ growthRatePercent r =
      round2 (growth_rate (first_close y bars) (last_close y bars))
  ∧ yearStartPrice r = round2 (default (of_Z 0) (first_close y bars))
  ∧ yearEndPrice r = round2 (default (of_Z 0) (last_close y bars)).
Proof.
  rewrite yearly_dividends_perm, list_elem_of_fmap.
  intros (y & -> & _). simpl.
  rewrite dividend_by_year_total, first_price_lookup, last_price_lookup.
  unfold dividend_yield, growth_rate.
  repeat split.
  - destruct (last_close y bars) as [e|]; [|done].
    destruct (gt e (of_Z 0)) eqn:He.
    + by rewrite (gt_0_truthy _ He).
    + by rewrite andb_false_r.
  - destruct (first_close y bars) as [s|]; [|done].
    destruct (last_close y bars) as [e|]; [|done].
    destruct (gt s (of_Z 0)) eqn:Hs.
    + by rewrite (gt_0_truthy _ Hs).
    + by rewrite andb_false_r.
Qed.

End Records.

(** ** The price fetch and the endpoint *)

Section Endpoint.
Context {P : Platform} {U : Upstream}.

(** The price fetch resolves only with at least one bar. *)
Lemma fetchKline_nonempty secid kline :
  fetchKline secid = Resolved kline → list_ kline ≠ [].
Proof.
  unfold fetchKline. destruct (kline_api U secid) as [res|]; [|done]. simpl.
  destruct (res_ok res); [|done]. simpl.
  destruct (res_body res) as [json|]; [|done]. simpl.
  destruct (kline_data json) as [d|]; [|done]. simpl.
  destruct (klines d) as [[|k ks]|]; try done. simpl.
  intros [= <-]. done.
Qed.


Lemma GET_result_inv query r :
  body (GET query) = ResultBody r →
  ∃ sec kline first ds,
    let symbol := default [] (trim <$> query) in
    let securityCode := default symbol (split_on 0x2E (secid sec) !! 1%nat) in
    let last := List.last (list_ kline) first in
    toSecId symbol = Some sec
    ∧ fetchKline (secid sec) = Resolved kline
    ∧ head (list_ kline) = Some first
    ∧ dividend_list (secid sec) (market sec) securityCode = Resolved ds
    ∧ status (GET query) = 200
    ∧ yearlyDividends r = yearly_dividends (list_ kline) ds
    ∧ hasDividends r = negb (is_nil_list (yearlyDividends r))
    ∧ cagrPercent r =
        round2 (cagr_percent (close first) (close last)
                  (years_between (date first) (date last))).
Proof.
  unfold GET.
  destruct (is_nil (default [] (trim <$> query))); [done|].
  destruct (toSecId _) as [sec|] eqn:Hsec; [|done].
  unfold analyse.
  destruct (fetchKline (secid sec)) as [kline|] eqn:Hk; [|done]. simpl.
  destruct (list_ kline) as [|first rest] eqn:Hl; [done|].
  destruct (dividend_list _ _ _) as [ds|] eqn:Hd; [|done]. simpl.
  intros [= <-]. exists sec, kline, first, ds. simpl.
  rewrite Hl. done.
Qed.

End Endpoint.

(** ** The dividend sources *)

Lemma not_le_0_gt a :
  isNaN a || le a (of_Z 0) = false → gt a (of_Z 0) = true.
Proof.
  intros [Hnan Hle]%orb_false_elim. unfold le in Hle. unfold gt.
  destruct a; try done; simpl in *; by apply negb_false_iff in Hle.
Qed.

Lemma div_10_pos a : gt a (of_Z 0) = true → gt (div a (of_Z 10)) (of_Z 0) = true.
Proof.
  destruct a as [| | |q]; try done.
  rewrite of_Z_0. unfold gt, lt, div, of_Z.
  rewrite bool_decide_eq_true. intros Hq.
  rewrite bool_decide_eq_false_2 by (by compute_done).
  apply bool_decide_eq_true.
  replace 0%Qc with (0 * / Qc_of_Z 10)%Qc by apply Qcmult_0_l.
  apply Qcmult_lt_compat_r; [by compute_done|done].
Qed.

Lemma Forall_omap {A B} (f : A → option B) (Q : B → Prop) (l : list A) :
  (∀ x y, f x = Some y → Q y) → Forall Q (omap f l).
Proof.
  intros Hf. induction l as [|x l IH]; csimpl; [constructor|].
  destruct (f x) as [y|] eqn:Hx; [constructor; eauto|done].
Qed.

Lemma omap_drop {A B} (f : A → option B) before r after :
  f r = None → omap f (before ++ r :: after) = omap f before ++ omap f after.
Proof. intros Hr. rewrite omap_app. csimpl. by rewrite Hr. Qed.

Lemma parseCashPerShareFromProfile_pos profile cash :
  parseCashPerShareFromProfile profile = Some cash → gt cash (of_Z 0) = true.
Proof.
  unfold parseCashPerShareFromProfile.
  destruct (is_nil profile || test_no_distribution profile); [done|].
  destruct (match_profile profile) as [X|]; [|done].
  destruct (isNaN (StringToNumber X) || le (StringToNumber X) (of_Z 0)) eqn:Hc;
    [done|].
  intros [= <-]. by apply div_10_pos, not_le_0_gt.
Qed.

Section Sources.
Context {P : Platform} {U : Upstream}.

Lemma dividend_row_event_dated r e :
  dividend_row_event r = Some e → dated_event e.
Proof.
  unfold dividend_row_event.
  destruct (negb _ || is_undefined _); [done|].
  destruct (isNaN (ToNumber _) || le _ _) eqn:Hc; [done|].
  destruct (isNaN (getFullYear _)) eqn:Hy; [done|].
  intros [= <-]. split; [by apply not_le_0_gt|done].
Qed.

Lemma fhyx_row_event_plausible row e :
  fhyx_row_event row = Some e → plausible_event e.
Proof.
  unfold fhyx_row_event, plausible_event.
  destruct (parseCashPerShareFromProfile _) as [cash|] eqn:Hc; [|done].
  destruct (negb _); [done|].
  destruct (plausible_year _) eqn:Hy; [|done].
  intros [= <-]. simpl. apply andb_true_iff in Hy as [? ?].
  eauto using parseCashPerShareFromProfile_pos.
Qed.

Lemma sgbh_row_event_plausible row e :
  sgbh_row_event row = Some e → plausible_event e.
Proof.
  unfold sgbh_row_event, plausible_event.
  destruct (is_null _); [done|].
  destruct (isNaN (ToNumber _) || le _ _) eqn:Hc; [done|].
  destruct (plausible_year _) eqn:Hy; [|done].
  intros [= <-]. simpl. apply andb_true_iff in Hy as [? ?].
  eauto using not_le_0_gt.
Qed.

Lemma quote_row_event_plausible row e :
  quote_row_event row = Some e → plausible_event e.
Proof.
  unfold quote_row_event, plausible_event.
  destruct (negb _ && to_boolean _); [|done].
  destruct (plausible_year _ && _ && _) eqn:Hc; [|done].
  intros [= <-]. simpl.
  apply andb_true_iff in Hc as [[[? ?]%andb_true_iff _]%andb_true_iff ?].
  done.
Qed.

Lemma fund_match_event_plausible m e :
  fund_match_event m = Some e → plausible_event e.
Proof.
  unfold fund_match_event, plausible_event.
  destruct (plausible_year _ && _ && _) eqn:Hc; [|done].
  intros [= <-]. simpl.
  apply andb_true_iff in Hc as [[[? ?]%andb_true_iff _]%andb_true_iff ?].
  done.
Qed.

Lemma fetchDividend_dated securityCode market events :
  fetchDividend securityCode market = Resolved events →
  Forall dated_event events.
Proof.
  unfold fetchDividend.
  destruct (datacenter_api U securityCode) as [res|]; [|done]. simpl.
  destruct (res_ok res); simpl; [|by intros [= <-]].
  destruct (res_body res) as [json|]; [|done]. simpl.
  intros [= <-]. apply Forall_omap, dividend_row_event_dated.
Qed.

Lemma fetchDividendF10_plausible secid market events :
  fetchDividendF10 secid market = Resolved events →
  Forall plausible_event events.
Proof.
  unfold fetchDividendF10.
  destruct (f10_api U _) as [res|]; [|done]. simpl.
  destruct (res_ok res); simpl; [|by intros [= <-]].
  destruct (res_body res) as [json|]; [|done]. simpl.
  destruct (negb _ && negb _); intros [= <-].
  - apply Forall_omap, fhyx_row_event_plausible.
  - apply Forall_omap, sgbh_row_event_plausible.
Qed.

Lemma quote_attempt_plausible url events :
  quote_attempt url = Resolved (Some events) → Forall plausible_event events.
Proof.
  unfold quote_attempt.
  destruct (quote_api U url) as [res|]; [|done]. simpl.
  destruct (res_ok res); simpl; [|done].
  destruct (res_body res) as [text|]; [|done]. simpl.
  destruct (try_catch _ _) as [[j|]|]; simpl; try done.
  destruct (quote_data j) as [rows|]; [|done].
  destruct (negb _); [|done].
  intros [= <-]. apply Forall_omap, quote_row_event_plausible.
Qed.

Lemma quote_loop_plausible urls events :
  quote_loop urls = Resolved events → Forall plausible_event events.
Proof.
  induction urls as [|url urls IH]; simpl; [by intros [= <-]|].
  destruct (quote_attempt url) as [[result|]|] eqn:Ha; simpl; try done.
  intros [= <-]. by eapply quote_attempt_plausible.
Qed.

(** The quote source absorbs every failure. *)
Lemma quote_loop_resolves urls : ∃ events, quote_loop urls = Resolved events.
Proof.
  induction urls as [|url urls IH]; simpl; [by eexists|].
  destruct (quote_attempt url) as [[result|]|]; simpl; eauto.
Qed.

Lemma fetchFundDividendFromPage_plausible securityCode events :
  fetchFundDividendFromPage securityCode = Resolved events →
  Forall plausible_event events.
Proof.
  unfold fetchFundDividendFromPage.
  destruct (fundpage_api U _) as [res|]; [|done]. simpl.
  destruct (res_ok res); simpl; [|by intros [= <-]].
  destruct (res_body res) as [html|]; [|done]. simpl.
  intros [= <-].
  repeat case_match; apply Forall_omap, fund_match_event_plausible.
Qed.

End Sources.

Section Batches.
Context {P : Platform} {U : Upstream}.

Lemma fetchDividend_batch securityCode market res before r after :
  datacenter_api U securityCode = Resolved res → res_ok res = true →
  res_body res = Resolved (DcRows (before ++ r :: after)) →
  dividend_row_event r = None →
  fetchDividend securityCode market =
    Resolved (omap dividend_row_event before ++ omap dividend_row_event after).
Proof.
  intros Hres Hok Hbody Hr. unfold fetchDividend.
  rewrite Hres. simpl. rewrite Hok. simpl. rewrite Hbody. simpl.
  by rewrite omap_drop.
Qed.

Lemma fetchDividendF10_batch secid market res json before r after :
  f10_api U (market_symbol market (code_of_secid secid)) = Resolved res →
  res_ok res = true → res_body res = Resolved json →
  fhyx json = Some (before ++ r :: after) →
  fhyx_row_event r = None →
  omap fhyx_row_event before ++ omap fhyx_row_event after ≠ [] →
  fetchDividendF10 secid market =
    Resolved (omap fhyx_row_event before ++ omap fhyx_row_event after).
Proof.
  intros Hres Hok Hbody Hrows Hr Hne. unfold fetchDividendF10.
  rewrite Hres. simpl. rewrite Hok. simpl. rewrite Hbody. simpl.
  rewrite Hrows. simpl. rewrite omap_drop by done.
  destruct (omap fhyx_row_event before ++ omap fhyx_row_event after); [done|].
  by destruct before.
Qed.

Lemma fetchDividendF10_legacy_batch secid market res json before r after :
  f10_api U (market_symbol market (code_of_secid secid)) = Resolved res →
  res_ok res = true → res_body res = Resolved json →
  fhyx json = None →
  data_sgbh_data json = Some (before ++ r :: after) →
  sgbh_row_event r = None →
  fetchDividendF10 secid market =
    Resolved (omap sgbh_row_event before ++ omap sgbh_row_event after).
Proof.
  intros Hres Hok Hbody Hfhyx Hrows Hr. unfold fetchDividendF10.
  rewrite Hres. simpl. rewrite Hok. simpl. rewrite Hbody. simpl.
  rewrite Hfhyx, Hrows. simpl. by rewrite omap_drop.
Qed.

Lemma fetchEtfDividendFromQuote_batch secid market res text json before r after :
  quote_api U (ClistUrl (code_of_secid secid)) = Resolved res →
  res_ok res = true → res_body res = Resolved text →
  JSON_parse U text = Resolved json →
  quote_data json = Some (before ++ r :: after) →
  quote_row_event r = None →
  omap quote_row_event before ++ omap quote_row_event after ≠ [] →
  fetchEtfDividendFromQuote secid market =
    Resolved (omap quote_row_event before ++ omap quote_row_event after).
Proof.
  intros Hres Hok Hbody Hjson Hrows Hr Hne.
  unfold fetchEtfDividendFromQuote. simpl. unfold quote_attempt.
  rewrite Hres. simpl. rewrite Hok. simpl. rewrite Hbody. simpl.
  rewrite Hjson. simpl. rewrite Hrows. rewrite omap_drop by done.
  by destruct (omap quote_row_event before ++ omap quote_row_event after).
Qed.

Lemma fetchFundDividendFromPage_batch securityCode res html before m after :
  fundpage_api U securityCode = Resolved res → res_ok res = true →
  res_body res = Resolved html →
  exec_all P rowRe html = before ++ m :: after →
  fund_match_event m = None →
  omap fund_match_event before ++ omap fund_match_event after ≠ [] →
  fetchFundDividendFromPage securityCode =
    Resolved (omap fund_match_event before ++ omap fund_match_event after).
Proof.
  intros Hres Hok Hbody Hrows Hm Hne. unfold fetchFundDividendFromPage.
  rewrite Hres. simpl. rewrite Hok. simpl. rewrite Hbody. simpl.
  rewrite Hrows, omap_drop by done.
  by destruct (omap fund_match_event before ++ omap fund_match_event after).
Qed.

End Batches.

Section Failures.
Context {P : Platform} {U : Upstream}.

Lemma GET_rejected query sec message :
  toSecId (default [] (trim <$> query)) = Some sec →
  analyse (default [] (trim <$> query)) sec = Rejected message →
  GET query =
    {| status := 500;
       body := ErrorBody (Some (default [] (trim <$> query)))
                 (lit "获取数据失败：" ++ message) |}.
Proof.
  intros Hsec Hrej. unfold GET. rewrite Hsec, Hrej.
  destruct (default [] (trim <$> query)); [done|]. done.
Qed.

End Failures.




(** C3.  A dividend source that cannot be reached makes the endpoint answer
    with status 500.  When the price fetch gives bars and the request to the
    data center is rejected, the rejection leaves [fetchDividend] and the
    chain of sources and is answered with status 500 and its message; the
    same holds for a body of the data center that cannot be read.  The quote
    source, for its part, absorbs every failure.  On the provider
    [Worlds.datacenter_down] the request "600519" is answered with status
    500. *)
Theorem dividend_failure_is_answered_with_500 :
  (∀ (P : Platform) (U : Upstream) query sec kline message,
     let symbol := default [] (trim <$> query) in
     let securityCode := default symbol (split_on 0x2E (secid sec) !! 1%nat) in
     toSecId symbol = Some sec →
     fetchKline (secid sec) = Resolved kline →
     datacenter_api U securityCode = Rejected message
     ∨ (∃ res, datacenter_api U securityCode = Resolved res
               ∧ res_ok res = true ∧ res_body res = Rejected message) →
     fetchDividend securityCode (market sec) = Rejected message
     ∧ GET query =
         {| status := 500;
            body := ErrorBody (Some symbol) (lit "获取数据失败：" ++ message) |})
  ∧ (∀ (P : Platform) (U : Upstream) secid market,
       ∃ events, fetchEtfDividendFromQuote secid market = Resolved events)
  ∧ (∃ kline, @fetchKline Worlds.china Worlds.datacenter_down (lit "1.600519")
              = Resolved kline)
  ∧ datacenter_api Worlds.datacenter_down (lit "600519")
    = Rejected (lit "fetch failed")
  ∧ @GET Worlds.china Worlds.datacenter_down (Some (lit "600519")) =
      {| status := 500;
         body := ErrorBody (Some (lit "600519"))
                   (lit "获取数据失败：fetch failed") |}.
Proof.
  split; [|split; [|split; [eexists; vm_compute; reflexivity|]]].
  - intros P U query sec kline message symbol securityCode Hsec Hk Hdown.
    assert (fetchDividend securityCode (market sec) = Rejected message) as Hd.
    { unfold fetchDividend.
      destruct Hdown as [->|(res & -> & Hok & Hbody)]; [done|].
      simpl. rewrite Hok. simpl. by rewrite Hbody. }
    split; [done|].
    apply (GET_rejected query sec _ Hsec).
    unfold analyse. fold symbol securityCode. rewrite Hk. simpl.
    pose proof (fetchKline_nonempty _ _ Hk) as Hne.
    destruct (list_ kline) as [|first rest]; [done|].
    unfold dividend_list. by rewrite Hd.
  - intros P U secid market. apply quote_loop_resolves.
  - split; vm_compute; reflexivity.
Qed.

(** ** The year axis of an analysis *)

Section Axis.
Context {P : Platform}.

Lemma yearly_dividends_nonempty bars ds :
  bars ≠ [] → yearly_dividends bars ds ≠ [].
Proof.
  destruct bars as [|first rest]; [done|]. intros _ Hnil.
  assert (bar_year first ∈ yd_year <$> yearly_dividends (first :: rest) ds)
    as Hin by (apply elem_of_year_axis; left; left).
  rewrite Hnil in Hin. by apply elem_of_nil in Hin.
Qed.

Lemma dividend_yield_0 e : round2 (dividend_yield (of_Z 0) e) = of_Z 0.
Proof.
  unfold dividend_yield. destruct e as [e|]; [|apply round2_0].
  destruct (gt e (of_Z 0)) eqn:He; [|apply round2_0].
  destruct e as [| | |q]; try done; [by compute_done|].
  rewrite of_Z_0 in *. unfold gt, lt in He. apply bool_decide_eq_true in He.
  unfold div. rewrite bool_decide_eq_false_2 by (by apply Qclt_not_eq in He).
  replace (0 / q)%Qc with 0%Qc by (unfold Qcdiv; by rewrite Qcmult_0_l).
  by compute_done.
Qed.

Lemma no_dividends_records bars :
  Forall (λ rec, totalDividend rec = of_Z 0 ∧ dividendYieldPercent rec = of_Z 0)
    (yearly_dividends bars []).
Proof.
  apply Forall_forall. intros rec Hrec.
  apply yearly_dividends_record in Hrec as (-> & -> & _).
  split; [apply round2_0|apply dividend_yield_0].
Qed.

End Axis.

(** C4, a case against it.  On the provider [Worlds.no_dividends] each of
    the four dividend sources yields no events for the fund "510300", and the
    analysis has [hasDividends] true. *)
Lemma no_events_yet_hasDividends :
  @fetchDividend Worlds.china Worlds.no_dividends (lit "510300") sh = Resolved []
  ∧ @fetchDividendF10 Worlds.china Worlds.no_dividends (lit "1.510300") sh
    = Resolved []
  ∧ @fetchEtfDividendFromQuote Worlds.china Worlds.no_dividends
      (lit "1.510300") sh = Resolved []
  ∧ @fetchFundDividendFromPage Worlds.china Worlds.no_dividends (lit "510300")
    = Resolved []
  ∧ ∃ r, body (@GET Worlds.china Worlds.no_dividends (Some (lit "510300")))
         = ResultBody r
         ∧ hasDividends r ≠ false.
Proof.
  repeat split; try (vm_compute; reflexivity).
  eexists. split; [vm_compute; reflexivity|]. done.
Qed.

(** C4, as the code has it.  If all four dividend sources yield no events,
    the aggregated dividend sequence is empty and every yearly record of the
    analysis has a total dividend and a dividend yield of zero;
    [hasDividends] is true all the same, since the analysis has a record for
    every year of the price bars. *)
Theorem no_events_empty_list (P : Platform) (U : Upstream) query sec :
  let symbol := default [] (trim <$> query) in
  let securityCode := default symbol (split_on 0x2E (secid sec) !! 1%nat) in
  toSecId symbol = Some sec →
  fetchDividend securityCode (market sec) = Resolved [] →
  fetchDividendF10 (secid sec) (market sec) = Resolved [] →
  fetchEtfDividendFromQuote (secid sec) (market sec) = Resolved [] →
  fetchFundDividendFromPage securityCode = Resolved [] →
  dividend_list (secid sec) (market sec) securityCode = Resolved []
  ∧ ∀ r, body (GET query) = ResultBody r →
      Forall (λ rec, totalDividend rec = of_Z 0
                     ∧ dividendYieldPercent rec = of_Z 0) (yearlyDividends r)
      ∧ yearlyDividends r ≠ []
      ∧ hasDividends r = true.
Proof.
  intros symbol securityCode Hsec H1 H2 H3 H4.
  assert (dividend_list (secid sec) (market sec) securityCode = Resolved [])
    as Hlist.
  { unfold dividend_list. rewrite H1. simpl. rewrite H2. simpl.
    destruct (isLikelyEtfOrFund securityCode); [|done].
    rewrite H3. simpl. by rewrite H4. }
  split; [done|]. intros r Hr.
  apply GET_result_inv in Hr
    as (sec' & kline & first & ds & Hsec' & Hk & Hfirst & Hds & _ & Hy & Hh & _).
  fold symbol in Hsec'. rewrite Hsec in Hsec'. injection Hsec' as <-.
  fold symbol securityCode in Hds. rewrite Hlist in Hds. injection Hds as <-.
  assert (yearlyDividends r ≠ []) as Hne.
  { rewrite Hy. apply yearly_dividends_nonempty. by destruct (list_ kline). }
  rewrite Hh. split; [|split; [done|by destruct (yearlyDividends r)]].
  rewrite Hy. apply no_dividends_records.
Qed.

Lemma no_events_empty_list_witness :
  @dividend_list Worlds.china Worlds.no_dividends (lit "1.510300") sh
    (lit "510300") = Resolved []
  ∧ ∀ r, body (@GET Worlds.china Worlds.no_dividends (Some (lit "510300")))
         = ResultBody r →
      Forall (λ rec, totalDividend rec = of_Z 0
                     ∧ dividendYieldPercent rec = of_Z 0) (yearlyDividends r)
      ∧ yearlyDividends r ≠ []
      ∧ hasDividends r = true.
Proof.
  apply (no_events_empty_list Worlds.china Worlds.no_dividends
           (Some (lit "510300")) {| secid := lit "1.510300"; market := sh |});
    vm_compute; reflexivity.
Defined.

(** ** The yearly metrics *)




(** C9, a case against it.  Two events of 0.1563 and 0.1 in 2020 add up to
    0.2563; the record of 2020 has a total dividend of 0.26. *)
Lemma total_dividend_is_not_the_exact_sum :
  let ds := [Worlds.dividend 2020 (1563 # 10000); Worlds.dividend 2020 (1 # 10)] in
  let rec := Worlds.record_of 2020 Worlds.bars_2020 ds in
  rec ∈ @yearly_dividends Worlds.china Worlds.bars_2020 ds
  ∧ dividends_of_year (yd_year rec) ds = Fin (Q2Qc (2563 # 10000))
  ∧ totalDividend rec = Fin (Q2Qc (26 # 100))
  ∧ totalDividend rec ≠ dividends_of_year (yd_year rec) ds.
Proof. repeat split; by compute_done. Qed.

(** C9, as the code has it.  For every year of the year axis the total that
    the engine accumulates is the sum of cashPerShare over all the events of
    that year, every event added and none overwritten, and the record
    carries that sum rounded to two decimals. *)
Theorem total_dividend_is_the_rounded_sum (P : Platform) bars ds rec :
  rec ∈ yearly_dividends bars ds →
  default (of_Z 0) (dividend_by_year ds !! yd_year rec)
    = dividends_of_year (yd_year rec) ds
  ∧ totalDividend rec = round2 (dividends_of_year (yd_year rec) ds).
Proof.
  intros Hrec. split; [apply dividend_by_year_total|].
  by apply yearly_dividends_record in Hrec as (? & _).
Qed.

Lemma total_dividend_is_the_rounded_sum_witness :
  let ds := [Worlds.dividend 2020 (1563 # 10000); Worlds.dividend 2020 (1 # 10)] in
  let rec := Worlds.record_of 2020 Worlds.bars_2020 ds in
  default (of_Z 0) (dividend_by_year ds !! yd_year rec)
    = dividends_of_year (yd_year rec) ds
  ∧ totalDividend rec = round2 (dividends_of_year (yd_year rec) ds).
Proof.
  intros ds rec.
  apply (total_dividend_is_the_rounded_sum Worlds.china Worlds.bars_2020).
  by compute_done.
Defined.

(** ** The records of an analysis *)




(** ** The growth rate of the whole series *)

Lemma of_Z_1 : of_Z 1 = Fin 1%Qc.
Proof. unfold of_Z. f_equal. by apply Qc_is_canon. Qed.

Lemma div_self a :
  is_finite a = true → gt a (of_Z 0) = true → div a a = of_Z 1.
Proof.
  destruct a as [| | |q]; try done. intros _.
  rewrite of_Z_0, of_Z_1. unfold gt, lt, div. rewrite bool_decide_eq_true.
  intros Hq. apply Qclt_not_eq in Hq.
  rewrite bool_decide_eq_false_2 by done.
  f_equal. unfold Qcdiv. by apply Qcmult_inv_r.
Qed.

Lemma div_1_finite a :
  gt a (of_Z 0) = true → is_finite (div (of_Z 1) a) = true.
Proof.
  rewrite of_Z_0, of_Z_1.
  destruct a as [| | |q]; try done. unfold gt, lt, div.
  rewrite bool_decide_eq_true. intros Hq. apply Qclt_not_eq in Hq.
  by rewrite bool_decide_eq_false_2.
Qed.

Section Cagr.
Context {P : Platform}.
Hypothesis Math_pow_1 :
  ∀ y, is_finite y = true → Math_pow P (of_Z 1) y = of_Z 1.

Lemma cagr_percent_flat price years :
  is_finite price = true → gt years (of_Z 0) = true →
  round2 (cagr_percent price price years) = of_Z 0.
Proof using Math_pow_1.
  intros Hfin Hyears. unfold cagr_percent. rewrite Hyears. simpl.
  destruct (gt price (of_Z 0)) eqn:Hprice; [|by compute_done].
  rewrite div_self, Math_pow_1 by auto using div_1_finite.
  by compute_done.
Qed.

End Cagr.

(** C8.  Where one to the power of a finite number is one, every price
    series whose first and last closes are the same decimal and whose span
    gives years > 0 has a whole-series cagrPercent of 0. *)
Theorem flat_series_has_zero_cagr (P : Platform) (U : Upstream)
    query r sec kline first :
  (∀ y, is_finite y = true → Math_pow P (of_Z 1) y = of_Z 1) →
  let symbol := default [] (trim <$> query) in
  let last := List.last (list_ kline) first in
  toSecId symbol = Some sec →
  fetchKline (secid sec) = Resolved kline →
  head (list_ kline) = Some first →
  body (GET query) = ResultBody r →
  close first = close last →
  is_finite (close first) = true →
  gt (years_between (date first) (date last)) (of_Z 0) = true →
  cagr_percent (close first) (close last)
    (years_between (date first) (date last)) = of_Z 0
  ∧ cagrPercent r = of_Z 0.
Proof.
  intros Hpow symbol last Hsec Hk Hfirst Hr Hclose Hfin Hyears.
  apply GET_result_inv in Hr
    as (sec' & kline' & first' & ds & Hsec' & Hk' & Hfirst' & _ & _ & _ & _ & Hc).
  fold symbol in Hsec'. rewrite Hsec in Hsec'. injection Hsec' as <-.
  rewrite Hk in Hk'. injection Hk' as <-.
  rewrite Hfirst in Hfirst'. injection Hfirst' as <-.
  fold last in Hc. rewrite <- Hclose in *.
  split; [|rewrite Hc; by apply cagr_percent_flat].
  unfold cagr_percent. rewrite Hyears. simpl.
  destruct (gt (close first) (of_Z 0)) eqn:Hprice; [|by compute_done].
  rewrite div_self, Hpow by auto using div_1_finite.
  by compute_done.
Qed.

Lemma pow_model_1 y :
  is_finite y = true → Sample.pow_model (of_Z 1) y = of_Z 1.
Proof.
  destruct y as [| | |e]; try done. intros _. rewrite of_Z_1.
  unfold Sample.pow_model. by rewrite bool_decide_eq_true_2.
Qed.

Lemma flat_series_has_zero_cagr_witness :
  ∃ r, body (@GET Worlds.china Worlds.flat (Some (lit "600519")))
       = ResultBody r
       ∧ cagrPercent r = of_Z 0.
Proof.
  eexists. split; [vm_compute; reflexivity|].
  eapply (flat_series_has_zero_cagr Worlds.china Worlds.flat
            (Some (lit "600519")) _
            {| secid := lit "1.600519"; market := sh |});
    [exact pow_model_1|vm_compute; reflexivity..].
Defined.

(** ** The profile-text parser *)

Lemma starts_with_app p s : starts_with p (p ++ s) = true.
Proof. induction p as [|c p IH]; [done|]. simpl. by rewrite N.eqb_refl. Qed.

Lemma contains_starts_with p s : starts_with p s = true → contains p s = true.
Proof. destruct s; simpl; by intros ->. Qed.

Lemma contains_app p before after : contains p (before ++ p ++ after) = true.
Proof.
  induction before as [|c before IH]; simpl.
  - apply contains_starts_with, starts_with_app.
  - by rewrite IH, orb_true_r.
Qed.


(** C5, a case against it.  The data-center source returns the event of a
    row dated 1985: its year is not strictly between 1990 and 2100. *)
Lemma data_center_event_of_1985 :
  ∃ e, @fetchDividend Worlds.china Worlds.old_dividend (lit "600519") sh
       = Resolved [e]
       ∧ dc_year e = of_Z 1985
       ∧ gt (dc_year e) (of_Z 1990) = false.
Proof.
  eexists. split; [vm_compute; reflexivity|]. split; by compute_done.
Qed.

(** C5, as the code has it.  Every event that the F10 source, the quote
    source or the fund-page source returns has an amount that is a number
    greater than 0 and a year strictly between 1990 and 2100; every event
    that the data-center source returns has an amount that is a number
    greater than 0 and a year that is a number, whatever the year.  In each
    source a row that fails the checks is dropped alone and the events of
    the other rows of its batch are returned. *)
Theorem dividend_events_pass_their_checks :
  (∀ (P : Platform) (U : Upstream) securityCode market events,
     fetchDividend securityCode market = Resolved events →
     Forall dated_event events)
  ∧ (∀ (P : Platform) (U : Upstream) secid market events,
       fetchDividendF10 secid market = Resolved events →
       Forall plausible_event events)
  ∧ (∀ (P : Platform) (U : Upstream) secid market events,
       fetchEtfDividendFromQuote secid market = Resolved events →
       Forall plausible_event events)
  ∧ (∀ (P : Platform) (U : Upstream) securityCode events,
       fetchFundDividendFromPage securityCode = Resolved events →
       Forall plausible_event events)
  ∧ (∀ (P : Platform) (U : Upstream) securityCode market res before r after,
       datacenter_api U securityCode = Resolved res → res_ok res = true →
       res_body res = Resolved (DcRows (before ++ r :: after)) →
       dividend_row_event r = None →
       fetchDividend securityCode market =
         Resolved (omap dividend_row_event before
                   ++ omap dividend_row_event after))
  ∧ (∀ (P : Platform) (U : Upstream) secid market res json before r after,
       f10_api U (market_symbol market (code_of_secid secid)) = Resolved res →
       res_ok res = true → res_body res = Resolved json →
       fhyx json = Some (before ++ r :: after) →
       fhyx_row_event r = None →
       omap fhyx_row_event before ++ omap fhyx_row_event after ≠ [] →
       fetchDividendF10 secid market =
         Resolved (omap fhyx_row_event before ++ omap fhyx_row_event after))
  ∧ (∀ (P : Platform) (U : Upstream) secid market res json before r after,
       f10_api U (market_symbol market (code_of_secid secid)) = Resolved res →
       res_ok res = true → res_body res = Resolved json →
       fhyx json = None →
       data_sgbh_data json = Some (before ++ r :: after) →
       sgbh_row_event r = None →
       fetchDividendF10 secid market =
         Resolved (omap sgbh_row_event before ++ omap sgbh_row_event after))
  ∧ (∀ (P : Platform) (U : Upstream) secid market res text json before r after,
       quote_api U (ClistUrl (code_of_secid secid)) = Resolved res →
       res_ok res = true → res_body res = Resolved text →
       JSON_parse U text = Resolved json →
       quote_data json = Some (before ++ r :: after) →
       quote_row_event r = None →
       omap quote_row_event before ++ omap quote_row_event after ≠ [] →
       fetchEtfDividendFromQuote secid market =
         Resolved (omap quote_row_event before ++ omap quote_row_event after))
  ∧ (∀ (P : Platform) (U : Upstream) securityCode res html before m after,
       fundpage_api U securityCode = Resolved res → res_ok res = true →
       res_body res = Resolved html →
       exec_all P rowRe html = before ++ m :: after →
       fund_match_event m = None →
       omap fund_match_event before ++ omap fund_match_event after ≠ [] →
       fetchFundDividendFromPage securityCode =
         Resolved (omap fund_match_event before ++ omap fund_match_event after)).
Proof.
  repeat split; intros P U.
  - apply fetchDividend_dated.
  - apply fetchDividendF10_plausible.
  - intros secid market events. apply quote_loop_plausible.
  - apply fetchFundDividendFromPage_plausible.
  - apply fetchDividend_batch.
  - apply fetchDividendF10_batch.
  - apply fetchDividendF10_legacy_batch.
  - apply fetchEtfDividendFromQuote_batch.
  - apply fetchFundDividendFromPage_batch.
Qed.

(** * Further properties of the code *)

(** ** The answers of the endpoint *)

Lemma lit_app_nonempty (s : string) (m : jsstring) :
  lit s ≠ [] → lit s ++ m ≠ [].
Proof. by destruct (lit s). Qed.

Section Answers.
Context {P : Platform} {U : Upstream}.

Lemma analyse_resolved symbol sec response :
  analyse symbol sec = Resolved response →
  status response = 200 ∧ ∃ r, body response = ResultBody r.
Proof.
  unfold analyse.
  destruct (fetchKline (secid sec)) as [kline|] eqn:Hk; [|done]. simpl.
  apply fetchKline_nonempty in Hk.
  destruct (list_ kline) as [|first rest]; [done|].
  destruct (dividend_list _ _ _) as [ds|]; [|done]. simpl.
  intros [= <-]. eauto.
Qed.

End Answers.

(** X1.  The endpoint answers with status 200, 400 or 500.  The status is
    400 exactly when the trimmed symbol is not resolved by [toSecId], which
    includes the missing and the blank symbol, whatever the provider; it is
    200 exactly when the body is an analysis.  Every other body carries a
    non-empty error message, and it carries the trimmed symbol except when
    that is empty. *)
Theorem GET_status_and_body (P : Platform) (U : Upstream) query :
  let symbol := default [] (trim <$> query) in
  (status (GET query) = 200 ∨ status (GET query) = 400
   ∨ status (GET query) = 500)
  ∧ (status (GET query) = 400 ↔ toSecId symbol = None)
  ∧ (status (GET query) = 200 ↔ ∃ r, body (GET query) = ResultBody r)
  ∧ (∀ s e, body (GET query) = ErrorBody s e →
       e ≠ [] ∧ (s = None ↔ symbol = []) ∧ (∀ x, s = Some x → x = symbol)).
Proof.
  intros symbol. unfold GET. fold symbol.
  assert (∀ (code : Z) (s : option jsstring) (e : jsstring),
            code ≠ 200 → e ≠ [] → (s = None ↔ symbol = []) →
            (∀ x, s = Some x → x = symbol) →
            (code = 200 ↔ ∃ r, ErrorBody s e = ResultBody r)
            ∧ ∀ s' e', ErrorBody s e = ErrorBody s' e' →
                e' ≠ [] ∧ (s' = None ↔ symbol = [])
                ∧ (∀ x, s' = Some x → x = symbol)) as Herr.
  { intros code s e Hcode He Hs Hx. split.
    - split; [done|]. by intros [r ?].
    - by intros s' e' [= <- <-]. }
  destruct symbol as [|c symbol'] eqn:Hsym; cbn [is_nil status body].
  { split; [auto|]. split; [done|]. by apply Herr. }
  assert (∀ s, s = Some (c :: symbol') →
            (s = None ↔ c :: symbol' = []) ∧ ∀ x, s = Some x → x = c :: symbol')
    as Hsome.
  { intros s ->. split; [done|]. by intros x [= <-]. }
  destruct (toSecId (c :: symbol')) as [sec|] eqn:Hsec.
  - destruct (analyse (c :: symbol') sec) as [response|message] eqn:Ha.
    + apply analyse_resolved in Ha as [Hst [r Hr]].
      rewrite Hst, Hr. split; [auto|]. split; [done|]. split; [|done].
      split; eauto.
    + cbn [status body]. split; [auto|]. split; [done|].
      destruct (Hsome _ eq_refl) as [H1 H2].
      apply Herr; [done|by apply lit_app_nonempty|exact H1|exact H2].
  - cbn [status body]. split; [auto|]. split; [done|].
    destruct (Hsome _ eq_refl) as [H1 H2].
    apply Herr; [done|done|exact H1|exact H2].
Qed.

(** X2.  When the price request is rejected, is answered with a status that
    is not successful, or has a body that cannot be read, the endpoint
    answers with status 500 and the message of that failure; for a status
    that is not successful the message names the status. *)
Theorem price_failure_is_answered_with_500 (P : Platform) (U : Upstream)
    query sec :
  let symbol := default [] (trim <$> query) in
  let failed message :=
    {| status := 500;
       body := ErrorBody (Some symbol) (lit "获取数据失败：" ++ message) |} in
  toSecId symbol = Some sec →
  (∀ message, kline_api U (secid sec) = Rejected message →
     GET query = failed message)
  ∧ (∀ res, kline_api U (secid sec) = Resolved res → res_ok res = false →
       GET query =
         failed (lit "K线请求失败: " ++ Number_toString P (of_Z (res_status res))))
  ∧ (∀ res message,
       kline_api U (secid sec) = Resolved res → res_ok res = true →
       res_body res = Rejected message → GET query = failed message).
Proof.
  intros symbol failed Hsec.
  repeat split; intros; apply (GET_rejected query sec _ Hsec);
    unfold analyse, fetchKline.
  - by rewrite H.
  - rewrite H. simpl. by rewrite H0.
  - rewrite H. simpl. rewrite H0. simpl. by rewrite H1.
Qed.

Lemma price_failure_is_answered_with_500_witness :
  @GET Worlds.china (Cases.with_kline Sample.not_found) (Some (lit "600519"))
  = {| status := 500;
       body := ErrorBody (Some (lit "600519"))
                 (lit "获取数据失败：" ++ lit "K线请求失败: 404") |}.
Proof.
  assert (toSecId (default [] (trim <$> Some (lit "600519")))
          = Some {| secid := lit "1.600519"; market := sh |}) as Hsec
    by (vm_compute; reflexivity).
  destruct (price_failure_is_answered_with_500 Worlds.china
              (Cases.with_kline Sample.not_found) (Some (lit "600519")) _ Hsec)
    as (_ & Hstatus & _).
  rewrite (Hstatus _ eq_refl eq_refl). vm_compute. reflexivity.
Defined.

(** ** The resolved identifier *)

Lemma is_whitespace_digit c : (0x30 ≤ c ≤ 0x39)%N → is_whitespace c = false.
Proof.
  intros Hc. unfold is_whitespace. apply orb_false_intro.
  - apply bool_decide_eq_false. rewrite !elem_of_cons, elem_of_nil. lia.
  - apply andb_false_iff. left. apply N.leb_gt. lia.
Qed.

Lemma remove_whitespace_digits raw :
  Forall (λ c, (0x30 ≤ c ≤ 0x39)%N) raw → remove_whitespace raw = raw.
Proof.
  unfold remove_whitespace. induction 1 as [|c raw Hc _ IH]; [done|].
  rewrite filter_cons, IH. by rewrite decide_True by by apply is_whitespace_digit.
Qed.

Lemma split_on_free sep s : sep ∉ s → split_on sep s = [s].
Proof.
  induction s as [|c s IH]; [done|]. rewrite not_elem_of_cons. intros [Hc Hs].
  simpl. rewrite IH by done.
  destruct (N.eqb_spec c sep) as [->|]; done.
Qed.

Lemma split_on_prefix sep p s :
  sep ∉ p → split_on sep (p ++ sep :: s) = p :: split_on sep s.
Proof.
  induction p as [|c p IH]; simpl.
  - intros _. by rewrite N.eqb_refl.
  - rewrite not_elem_of_cons. intros [Hc Hp]. rewrite IH by done.
    destruct (N.eqb_spec c sep) as [->|]; done.
Qed.

Lemma toSecId_Some_inv symbol sec :
  toSecId symbol = Some sec →
  six_ascii_digits (remove_whitespace symbol)
  ∧ secid sec = (match market sec with sh => lit "1." | sz => lit "0." end)
                ++ remove_whitespace symbol.
Proof.
  unfold toSecId.
  destruct (match_six_digits _) as [code|] eqn:Hm; [|done].
  apply match_six_digits_Some in Hm as [Hsix ->].
  repeat case_match; intros [= <-]; done.
Qed.

Lemma code_of_resolved symbol sec :
  toSecId symbol = Some sec →
  split_on 0x2E (secid sec) !! 1%nat = Some (remove_whitespace symbol).
Proof.
  intros Hsec. apply toSecId_Some_inv in Hsec as [[_ Hdigits] ->].
  assert (0x2E%N ∉ remove_whitespace symbol) as Hfree.
  { intros Hin. rewrite Forall_forall in Hdigits. apply Hdigits in Hin. lia. }
  destruct (market sec).
  - change (lit "1." ++ remove_whitespace symbol)
      with ([0x31%N] ++ 0x2E%N :: remove_whitespace symbol).
    rewrite split_on_prefix, (split_on_free _ _ Hfree); [done|].
    rewrite elem_of_cons, elem_of_nil. lia.
  - change (lit "0." ++ remove_whitespace symbol)
      with ([0x30%N] ++ 0x2E%N :: remove_whitespace symbol).
    rewrite split_on_prefix, (split_on_free _ _ Hfree); [done|].
    rewrite elem_of_cons, elem_of_nil. lia.
Qed.

Section ResultSymbol.
Context {P : Platform} {U : Upstream}.

Lemma GET_result_symbol query r :
  body (GET query) = ResultBody r →
  ∃ sec, toSecId (default [] (trim <$> query)) = Some sec
         ∧ symbol r = default (default [] (trim <$> query))
                        (split_on 0x2E (secid sec) !! 1%nat).
Proof.
  unfold GET.
  destruct (is_nil (default [] (trim <$> query))); [done|].
  destruct (toSecId _) as [sec|] eqn:Hsec; [|done].
  unfold analyse.
  destruct (fetchKline (secid sec)) as [kline|]; [|done]. simpl.
  destruct (list_ kline) as [|first rest]; [done|].
  destruct (dividend_list _ _ _) as [ds|]; [|done]. simpl.
  intros [= <-]. by exists sec.
Qed.

End ResultSymbol.

(** X3.  The identifier that [toSecId] gives is "1." or "0.", by its market,
    followed by the input without whitespace; splitting it at the point
    gives that code back, the code resolves to the same identifier again, and
    an analysis carries that code as its symbol. *)
Theorem resolved_code_round_trip input sec :
  toSecId input = Some sec →
  secid sec = (match market sec with sh => lit "1." | sz => lit "0." end)
              ++ remove_whitespace input
  ∧ code_of_secid (secid sec) = remove_whitespace input
  ∧ toSecId (code_of_secid (secid sec)) = Some sec
  ∧ (∀ (P : Platform) (U : Upstream) query r,
       default [] (trim <$> query) = input →
       body (GET query) = ResultBody r →
       symbol r = remove_whitespace input).
Proof.
  intros Hsec.
  pose proof (code_of_resolved _ _ Hsec) as Hcode.
  pose proof (toSecId_Some_inv _ _ Hsec) as [[Hlen Hdigits] Heq].
  assert (code_of_secid (secid sec) = remove_whitespace input) as Hc
    by (unfold code_of_secid; by rewrite Hcode).
  split; [done|]. split; [done|]. split.
  - rewrite Hc. unfold toSecId in *.
    by rewrite (remove_whitespace_digits _ Hdigits).
  - intros P U query r <- Hr.
    apply GET_result_symbol in Hr as (sec' & Hsec' & ->).
    rewrite Hsec in Hsec'. injection Hsec' as <-. by rewrite Hcode.
Qed.

Lemma resolved_code_round_trip_witness :
  code_of_secid (lit "0.000001") = lit "000001"
  ∧ toSecId (code_of_secid (lit "0.000001"))
    = Some {| secid := lit "0.000001"; market := sz |}.
Proof.
  destruct (resolved_code_round_trip (lit " 00 0001")
              {| secid := lit "0.000001"; market := sz |})
    as (_ & Hcode & Hagain & _); [vm_compute; reflexivity|].
  split; [exact Hcode|exact Hagain].
Defined.

(** X4.  Every code of six digits that [isLikelyEtfOrFund] accepts is
    resolved by [toSecId]: to Shanghai when it begins with 5 (51, 56, 58)
    and to Shenzhen otherwise (15, 16), with the code itself behind the
    point. *)
Theorem etf_codes_resolve code :
  six_ascii_digits code → isLikelyEtfOrFund code = true →
  ∃ sec, toSecId code = Some sec
         ∧ code_of_secid (secid sec) = code
         ∧ (market sec = sh ↔ has_prefix (lit "5") code)
         ∧ (market sec = sz ↔ has_prefix (lit "1") code).
Proof.
  intros [Hlen Hdigits] Hetf.
  assert (∃ sec, toSecId code = Some sec
                 ∧ (market sec = sh ↔ has_prefix (lit "5") code)
                 ∧ (market sec = sz ↔ has_prefix (lit "1") code))
    as (sec & Hsec & Hsh & Hsz).
  { unfold toSecId. rewrite (remove_whitespace_digits _ Hdigits).
    assert (match_six_digits code = Some code) as ->
      by (by apply match_six_digits_Some).
    unfold isLikelyEtfOrFund in Hetf. rewrite Hlen in Hetf. simpl in Hetf.
    destruct code as [|a [|b rest]]; try done.
    unfold slice0 in *. cbn [take] in *.
    repeat (apply orb_true_iff in Hetf as [Hetf|Hetf]);
      apply bool_decide_eq_true in Hetf; injection Hetf as -> ->;
      (eexists; split; [vm_compute; reflexivity|]);
      (split; (split; [intros ?|intros [? ?]]; try done;
               by eexists)). }
  exists sec. split; [done|]. split; [|done].
  unfold code_of_secid. rewrite (code_of_resolved _ _ Hsec).
  simpl. by apply remove_whitespace_digits.
Qed.

Lemma etf_codes_resolve_witness :
  ∃ sec, toSecId (lit "159915") = Some sec
         ∧ code_of_secid (secid sec) = lit "159915"
         ∧ (market sec = sh ↔ has_prefix (lit "5") (lit "159915"))
         ∧ (market sec = sz ↔ has_prefix (lit "1") (lit "159915")).
Proof.
  apply etf_codes_resolve; [|vm_compute; reflexivity].
  split; [vm_compute; reflexivity|].
  repeat (constructor; [vm_compute; split; discriminate|]). constructor.
Defined.

(** ** The order of the yearly records *)

Lemma sub_gt_0 (x y : Qc) :
  gt (sub (Fin x) (Fin y)) (of_Z 0) = bool_decide (y < x)%Qc.
Proof.
  rewrite of_Z_0. unfold gt, lt, sub, add, neg.
  apply bool_decide_ext. symmetry. apply Qclt_minus_iff.
Qed.

#[local] Instance by_difference_total : Total by_difference.
Proof.
  intros a b. unfold by_difference.
  destruct a as [| | |x], b as [| | |y]; try (by left); try (by right).
  rewrite !sub_gt_0.
  destruct (decide (y < x)%Qc) as [Hlt|Hge].
  - right. apply bool_decide_eq_false. intros Hxy.
    by apply (Qclt_not_le _ _ Hlt), Qclt_le_weak.
  - left. by apply bool_decide_eq_false.
Qed.

#[local] Instance by_year_total : Total by_year.
Proof. intros a b. apply by_difference_total. Qed.

Lemma by_difference_lt a b :
  isNaN a = false → isNaN b = false → a ≠ b → by_difference a b →
  lt a b = true.
Proof.
  unfold by_difference.
  destruct a as [| | |x], b as [| | |y]; try done.
  intros _ _ Hne. rewrite sub_gt_0, bool_decide_eq_false. intros Hge.
  apply bool_decide_eq_true. apply Qcnot_lt_le in Hge.
  apply Qcle_lt_or_eq in Hge as [?|Heq]; [done|]. by subst.
Qed.

Lemma lt_transitive a b c : lt a b = true → lt b c = true → lt a c = true.
Proof.
  destruct a as [| | |x], b as [| | |y], c as [| | |z]; try done.
  unfold lt. rewrite !bool_decide_eq_true. apply Qclt_trans.
Qed.

Lemma Sorted_by_year_lt (l : list YearlyDividend) :
  Sorted by_year l →
  Forall (λ rec, isNaN (yd_year rec) = false) l →
  NoDup (yd_year <$> l) →
  StronglySorted (λ a b, lt (yd_year a) (yd_year b) = true) l.
Proof.
  intros Hsorted Hnan Hnd.
  apply Sorted_StronglySorted.
  { intros a b c. apply lt_transitive. }
  induction Hsorted as [|a l Hl IH Hhd]; [constructor|].
  apply Forall_cons in Hnan as [Ha Hnan]. csimpl in Hnd.
  apply NoDup_cons in Hnd as [Hnotin Hnd].
  constructor; [by apply IH|].
  destruct Hhd as [|b l' Hab]; constructor.
  apply Forall_cons in Hnan as [Hb _].
  apply by_difference_lt; try done.
  intros Heq. apply Hnotin. rewrite Heq. csimpl. left.
Qed.

Section Order.
Context {P : Platform}.

Lemma yearly_dividends_sorted bars ds :
  Forall (λ bar, isNaN (bar_year bar) = false) bars →
  Forall (λ d, isNaN (year d) = false) ds →
  StronglySorted (λ a b, lt (yd_year a) (yd_year b) = true)
    (yearly_dividends bars ds).
Proof.
  intros Hbars Hds. apply Sorted_by_year_lt.
  - unfold yearly_dividends. destruct (price_by_year bars) as [f l].
    apply (Sorted_merge_sort by_year).
  - apply Forall_forall. intros rec Hrec.
    assert (yd_year rec ∈ yd_year <$> yearly_dividends bars ds) as Hin
      by (by apply list_elem_of_fmap_2).
    apply elem_of_year_axis in Hin as [Hin|Hin];
      apply list_elem_of_fmap in Hin as (x & -> & Hx).
    + rewrite Forall_forall in Hbars. by apply Hbars.
    + rewrite Forall_forall in Hds. by apply Hds.
  - apply year_axis_NoDup.
Qed.

End Order.

Section Chain.
Context {P : Platform} {U : Upstream}.

Lemma plausible_event_dated e :
  plausible_event e →
  gt (cashPerShare e) (of_Z 0) = true ∧ isNaN (year e) = false.
Proof. intros (? & Hy & _). split; [done|]. by destruct (year e). Qed.

(** Whatever the chain of sources gives has a positive amount and a year
    that is a number. *)
Lemma dividend_list_dated secid market securityCode ds :
  dividend_list secid market securityCode = Resolved ds →
  Forall (λ d, gt (cashPerShare d) (of_Z 0) = true ∧ isNaN (year d) = false) ds.
Proof.
  assert (∀ l, Forall plausible_event l →
            Forall (λ d, gt (cashPerShare d) (of_Z 0) = true
                         ∧ isNaN (year d) = false) l) as Hpl.
  { intros l Hl. eapply Forall_impl; [exact Hl|]. apply plausible_event_dated. }
  unfold dividend_list.
  destruct (fetchDividend securityCode market) as [dc|] eqn:Hdc; [|done].
  apply fetchDividend_dated in Hdc. simpl.
  destruct (is_nil_list dc) eqn:Hnil; simpl.
  - destruct (fetchDividendF10 secid market) as [f10|] eqn:Hf10; [|done].
    apply fetchDividendF10_plausible in Hf10. simpl.
    destruct (is_nil_list f10 && isLikelyEtfOrFund securityCode).
    + destruct (fetchEtfDividendFromQuote secid market) as [q|] eqn:Hq; [|done].
      apply quote_loop_plausible in Hq. simpl.
      destruct (is_nil_list q); simpl.
      * intros Hpage. apply Hpl.
        by apply (fetchFundDividendFromPage_plausible securityCode).
      * intros [= <-]. by apply Hpl.
    + intros [= <-]. by apply Hpl.
  - assert (Forall (λ d, gt (cashPerShare d) (of_Z 0) = true
                          ∧ isNaN (year d) = false)
              ((λ d, {| year := dc_year d; cashPerShare := dc_cashPerShare d |})
               <$> dc)) as Hmap.
    { apply Forall_fmap. eapply Forall_impl; [exact Hdc|]. by intros d [? ?]. }
    destruct (is_nil_list _ && _) eqn:Hc.
    + apply andb_true_iff in Hc as [Hc _]. by destruct dc.
    + by intros [= <-].
Qed.

End Chain.

(** X5.  When every bar of the price history has a valid date, the yearly
    records of an analysis are in strictly ascending order of year. *)
Theorem records_ascend_by_year (P : Platform) (U : Upstream)
    query sec kline r :
  toSecId (default [] (trim <$> query)) = Some sec →
  fetchKline (secid sec) = Resolved kline →
  Forall (λ bar, isNaN (bar_year bar) = false) (list_ kline) →
  body (GET query) = ResultBody r →
  StronglySorted (λ a b, lt (yd_year a) (yd_year b) = true) (yearlyDividends r).
Proof.
  intros Hsec Hk Hbars Hr.
  apply GET_result_inv in Hr
    as (sec' & kline' & first & ds & Hsec' & Hk' & _ & Hds & _ & -> & _).
  rewrite Hsec in Hsec'. injection Hsec' as <-.
  rewrite Hk in Hk'. injection Hk' as <-.
  apply yearly_dividends_sorted; [done|].
  apply dividend_list_dated in Hds.
  eapply Forall_impl; [exact Hds|]. by intros d [_ ?].
Qed.

Lemma records_ascend_by_year_witness :
  ∃ r, body (@GET Worlds.china Worlds.old_dividend (Some (lit "600519")))
       = ResultBody r
       ∧ StronglySorted (λ a b, lt (yd_year a) (yd_year b) = true)
           (yearlyDividends r)
       ∧ yd_year <$> yearlyDividends r = [of_Z 1985; of_Z 2020].
Proof.
  eexists. split; [vm_compute; reflexivity|]. split.
  - eapply (records_ascend_by_year Worlds.china Worlds.old_dividend
              (Some (lit "600519")) {| secid := lit "1.600519"; market := sh |});
      [vm_compute; reflexivity|vm_compute; reflexivity| |vm_compute; reflexivity].
    repeat (constructor; [vm_compute; reflexivity|]). constructor.
  - by compute_done.
Defined.

(** ** The prices of a year *)

(** X6.  The start price of a yearly record is the close of the first bar
    of its year and its end price the close of the last bar of its year,
    each rounded to two decimals.  A year that only the dividend events
    bring has no bar: its prices, its growth and its dividend yield are 0. *)
Theorem year_prices (P : Platform) bars ds rec :
  rec ∈ yearly_dividends bars ds →
  let y := yd_year rec in
  yearStartPrice rec = round2 (default (of_Z 0) (first_close y bars))
  ∧ yearEndPrice rec = round2 (default (of_Z 0) (last_close y bars))
  ∧ (y ∈ bar_year <$> bars →
     is_Some (first_close y bars) ∧ is_Some (last_close y bars))
  ∧ (y ∉ bar_year <$> bars →
     y ∈ year <$> ds
     ∧ yearStartPrice rec = of_Z 0 ∧ yearEndPrice rec = of_Z 0
     ∧ growthRatePercent rec = of_Z 0 ∧ dividendYieldPercent rec = of_Z 0).
Proof.
  intros Hrec y.
  assert (y ∈ bar_year <$> bars ∨ y ∈ year <$> ds) as Haxis
    by (apply elem_of_year_axis; by apply list_elem_of_fmap_2).
  apply yearly_dividends_record in Hrec as (_ & Hyield & Hgrowth & Hs & He).
  fold y in Hyield, Hgrowth, Hs, He.
  pose proof (elem_of_bars_years bars y) as Hbars.
  rewrite first_price_lookup in Hbars.
  assert (is_Some (first_close y bars) → is_Some (last_close y bars)) as Hlast.
  { unfold first_close, last_close. intros [c Hc].
    destruct (bars_of_year y bars) as [|b l] using rev_ind; [done|].
    rewrite last_snoc. by eexists. }
  split; [done|]. split; [done|]. split.
  - intros Hin. apply Hbars in Hin. auto.
  - intros Hnotin. destruct Haxis as [?|Hds]; [done|]. split; [done|].
    assert (first_close y bars = None) as Hnone.
    { destruct (first_close y bars) eqn:Hf; [|done].
      exfalso. apply Hnotin, Hbars. by eexists. }
    assert (last_close y bars = None) as Hnone'.
    { unfold first_close, last_close in *.
      by destruct (bars_of_year y bars). }
    rewrite Hs, He, Hgrowth, Hyield, Hnone, Hnone'. simpl.
    by rewrite round2_0.
Qed.

Lemma year_prices_witness :
  let ds := [Worlds.dividend 2019 (1 # 2)] in
  let rec := Worlds.record_of 2019 Worlds.bars_2020 ds in
  yearStartPrice rec = of_Z 0 ∧ yearEndPrice rec = of_Z 0
  ∧ growthRatePercent rec = of_Z 0 ∧ dividendYieldPercent rec = of_Z 0.
Proof.
  intros ds rec.
  assert (rec ∈ @yearly_dividends Worlds.china Worlds.bars_2020 ds) as Hin
    by compute_done.
  destruct (year_prices Worlds.china _ _ rec Hin) as (_ & _ & _ & Hnone).
  apply Hnone. by compute_done.
Defined.

(** ** The sign of the dividend figures *)

Lemma nonneg_Fin q : nonneg_number (Fin q) ↔ (0 ≤ q)%Qc.
Proof.
  unfold nonneg_number, le, lt. rewrite of_Z_0, negb_true_iff.
  rewrite bool_decide_eq_false. split; [apply Qcnot_lt_le|apply Qcle_not_lt].
Qed.

Lemma pos_nonneg a : gt a (of_Z 0) = true → nonneg_number a.
Proof.
  destruct a as [| | |q]; try done. rewrite nonneg_Fin, of_Z_0.
  unfold gt, lt. rewrite bool_decide_eq_true. apply Qclt_le_weak.
Qed.

Lemma add_nonneg a b :
  nonneg_number a → nonneg_number b → nonneg_number (add a b).
Proof.
  destruct a as [| | |x], b as [| | |y]; try done.
  rewrite !nonneg_Fin. intros Hx Hy. unfold add. apply nonneg_Fin.
  replace 0%Qc with (0 + 0)%Qc by apply Qcplus_0_l.
  by apply Qcplus_le_compat.
Qed.

Lemma sum_nonneg l : Forall nonneg_number l → nonneg_number (sum_numbers l).
Proof.
  unfold sum_numbers. intros Hl.
  assert (nonneg_number (of_Z 0)) as H0 by done.
  revert H0. generalize (of_Z 0).
  induction Hl as [|a l Ha _ IH]; intros acc Hacc; [done|].
  simpl. apply IH. by apply add_nonneg.
Qed.

Lemma times_100_nonneg a : nonneg_number a → nonneg_number (mul a (of_Z 100)).
Proof.
  destruct a as [| | |x]; try done.
  rewrite nonneg_Fin. intros Hx. unfold mul, of_Z. apply nonneg_Fin.
  replace 0%Qc with (0 * Qc_of_Z 100)%Qc by apply Qcmult_0_l.
  apply Qcmult_le_compat_r; [done|by compute_done].
Qed.

Lemma over_100_nonneg a : nonneg_number a → nonneg_number (div a (of_Z 100)).
Proof.
  destruct a as [| | |x]; try done.
  rewrite nonneg_Fin. intros Hx. unfold div, of_Z.
  rewrite bool_decide_eq_false_2 by (by compute_done). apply nonneg_Fin.
  unfold Qcdiv.
  replace 0%Qc with (0 * / Qc_of_Z 100)%Qc by apply Qcmult_0_l.
  apply Qcmult_le_compat_r; [done|by compute_done].
Qed.

Lemma Math_round_nonneg a : nonneg_number a → nonneg_number (Math_round a).
Proof.
  destruct a as [| | |x]; try done.
  rewrite nonneg_Fin. intros Hx. unfold Math_round, of_Z. apply nonneg_Fin.
  assert (0 ≤ Qfloor (x + Q2Qc (1 # 2))%Qc)%Z as Hfloor.
  { change 0%Z with (Qfloor 0). apply Qfloor_resp_le.
    change (0 ≤ x + Q2Qc (1 # 2))%Qc.
    replace 0%Qc with (0 + 0)%Qc by apply Qcplus_0_l.
    apply Qcplus_le_compat; [done|by compute_done]. }
  revert Hfloor. generalize (Qfloor (x + Q2Qc (1 # 2))%Qc). intros z Hz.
  unfold Qcle. simpl. unfold Qle. simpl. lia.
Qed.

Lemma round2_nonneg a : nonneg_number a → nonneg_number (round2 a).
Proof.
  intros Ha. unfold round2.
  by apply over_100_nonneg, Math_round_nonneg, times_100_nonneg.
Qed.

Lemma div_nonneg a e :
  nonneg_number a → is_finite e = true → gt e (of_Z 0) = true →
  nonneg_number (div a e).
Proof.
  destruct e as [| | |y]; try done. intros Ha _.
  rewrite of_Z_0. unfold gt, lt. rewrite bool_decide_eq_true. intros Hy.
  destruct a as [| | |x]; try done.
  - unfold div. rewrite bool_decide_eq_false_2; [done|].
    intros Hneg. by apply (Qclt_not_le _ _ Hy), Qclt_le_weak.
  - apply nonneg_Fin in Ha. unfold div.
    rewrite bool_decide_eq_false_2 by (by apply Qclt_not_eq in Hy).
    apply nonneg_Fin. unfold Qcdiv.
    replace 0%Qc with (0 * / y)%Qc by apply Qcmult_0_l.
    apply Qcmult_le_compat_r; [done|].
    apply Qclt_le_weak. by apply Qcinv_pos.
Qed.

Section Sign.
Context {P : Platform}.

Lemma dividends_of_year_nonneg y ds :
  Forall (λ d, gt (cashPerShare d) (of_Z 0) = true) ds →
  nonneg_number (dividends_of_year y ds).
Proof.
  intros Hds. unfold dividends_of_year. apply sum_nonneg.
  apply Forall_fmap, Forall_forall. intros d [_ Hd]%list_elem_of_filter.
  rewrite Forall_forall in Hds. by apply pos_nonneg, Hds.
Qed.

Lemma round2_PosInf : round2 PosInf = PosInf.
Proof. by compute_done. Qed.

Lemma dividend_figures_of_record bars ds rec :
  Forall (λ d, gt (cashPerShare d) (of_Z 0) = true) ds →
  rec ∈ yearly_dividends bars ds →
  nonneg_number (totalDividend rec)
  ∧ (yearEndPrice rec ≠ PosInf → nonneg_number (dividendYieldPercent rec)).
Proof.
  intros Hds Hrec.
  apply yearly_dividends_record in Hrec as (-> & -> & _ & _ & ->).
  pose proof (dividends_of_year_nonneg (yd_year rec) ds Hds) as Htotal.
  split; [by apply round2_nonneg|]. intros Hend. apply round2_nonneg.
  unfold dividend_yield.
  destruct (last_close (yd_year rec) bars) as [e|]; [|done].
  destruct (gt e (of_Z 0)) eqn:He; [|done].
  apply times_100_nonneg, div_nonneg; try done.
  destruct e; try done; simpl in Hend; by rewrite round2_PosInf in Hend.
Qed.

End Sign.

(** X7.  In every analysis the total dividend of each yearly record is a
    number that is not negative, and so is its dividend yield unless the end
    price of the year is infinite: what the chain of sources gives has
    positive amounts only. *)
Theorem dividend_figures_are_not_negative (P : Platform) (U : Upstream)
    query r :
  body (GET query) = ResultBody r →
  Forall (λ rec, le (of_Z 0) (totalDividend rec) = true
                 ∧ (yearEndPrice rec ≠ PosInf →
                    le (of_Z 0) (dividendYieldPercent rec) = true))
    (yearlyDividends r).
Proof.
  intros Hr.
  apply GET_result_inv in Hr
    as (sec & kline & first & ds & _ & _ & _ & Hds & _ & -> & _).
  apply dividend_list_dated in Hds.
  apply Forall_forall. intros rec Hrec.
  apply (dividend_figures_of_record (list_ kline) ds); [|done].
  eapply Forall_impl; [exact Hds|]. by intros d [? _].
Qed.

Lemma dividend_figures_are_not_negative_witness :
  ∃ r, body (@GET Worlds.china Worlds.one_dividend (Some (lit "600519")))
       = ResultBody r
       ∧ Forall (λ rec, le (of_Z 0) (totalDividend rec) = true
                        ∧ (yearEndPrice rec ≠ PosInf →
                           le (of_Z 0) (dividendYieldPercent rec) = true))
           (yearlyDividends r).
Proof.
  eexists. split; [vm_compute; reflexivity|].
  apply (dividend_figures_are_not_negative Worlds.china Worlds.one_dividend
           (Some (lit "600519"))).
  vm_compute. reflexivity.
Defined.

(** ** The chain of dividend sources *)

(** X8.  The chain takes the events of the first source that has any and
    never merges two sources.  Events of the data center are taken alone,
    whatever the other sources would answer; otherwise events of the F10
    source are taken alone; when both have none, a code that
    [isLikelyEtfOrFund] rejects has no events, and for a code that it
    accepts the events of the quote source are taken if there are any, and
    the answer of the fund page otherwise. *)
Theorem dividend_chain_takes_the_first_source (P : Platform) (U : Upstream)
    secid market securityCode :
  (∀ d ds, fetchDividend securityCode market = Resolved (d :: ds) →
     dividend_list secid market securityCode =
       Resolved ((λ d, {| year := dc_year d; cashPerShare := dc_cashPerShare d |})
                 <$> d :: ds))
  ∧ (∀ e es, fetchDividend securityCode market = Resolved [] →
       fetchDividendF10 secid market = Resolved (e :: es) →
       dividend_list secid market securityCode = Resolved (e :: es))
  ∧ (fetchDividend securityCode market = Resolved [] →
     fetchDividendF10 secid market = Resolved [] →
     isLikelyEtfOrFund securityCode = false →
     dividend_list secid market securityCode = Resolved [])
  ∧ (∀ e es, fetchDividend securityCode market = Resolved [] →
       fetchDividendF10 secid market = Resolved [] →
       isLikelyEtfOrFund securityCode = true →
       fetchEtfDividendFromQuote secid market = Resolved (e :: es) →
       dividend_list secid market securityCode = Resolved (e :: es))
  ∧ (fetchDividend securityCode market = Resolved [] →
     fetchDividendF10 secid market = Resolved [] →
     isLikelyEtfOrFund securityCode = true →
     fetchEtfDividendFromQuote secid market = Resolved [] →
     dividend_list secid market securityCode =
       fetchFundDividendFromPage securityCode).
Proof.
  unfold dividend_list. repeat split.
  - by intros d ds ->.
  - by intros e es -> ->.
  - by intros -> -> ->.
  - by intros e es -> -> -> ->.
  - by intros -> -> -> ->.
Qed.

(** X9.  Each dividend source answers a status that is not successful with
    no events: the data center, the F10 source and the fund page for their
    one request, the quote source when both of its requests have such a
    status. *)
Theorem unsuccessful_status_gives_no_events (P : Platform) (U : Upstream) :
  (∀ securityCode market res,
     datacenter_api U securityCode = Resolved res → res_ok res = false →
     fetchDividend securityCode market = Resolved [])
  ∧ (∀ secid market res,
       f10_api U (market_symbol market (code_of_secid secid)) = Resolved res →
       res_ok res = false →
       fetchDividendF10 secid market = Resolved [])
  ∧ (∀ secid market res1 res2,
       quote_api U (ClistUrl (code_of_secid secid)) = Resolved res1 →
       res_ok res1 = false →
       quote_api U (FundArchivesUrl (market_symbol market (code_of_secid secid)))
       = Resolved res2 →
       res_ok res2 = false →
       fetchEtfDividendFromQuote secid market = Resolved [])
  ∧ (∀ securityCode res,
       fundpage_api U securityCode = Resolved res → res_ok res = false →
       fetchFundDividendFromPage securityCode = Resolved []).
Proof.
  repeat split.
  - intros securityCode market res Hres Hok. unfold fetchDividend.
    rewrite Hres. simpl. by rewrite Hok.
  - intros secid market res Hres Hok. unfold fetchDividendF10.
    rewrite Hres. simpl. by rewrite Hok.
  - intros secid market res1 res2 H1 Hok1 H2 Hok2.
    unfold fetchEtfDividendFromQuote. simpl. unfold quote_attempt.
    rewrite H1. simpl. rewrite Hok1. simpl. rewrite H2. simpl. by rewrite Hok2.
  - intros securityCode res Hres Hok. unfold fetchFundDividendFromPage.
    rewrite Hres. simpl. by rewrite Hok.
Qed.

(** ** The profile-text parser, further *)

Ltac split_code_unit c :=
  destruct c as [|c]; [|do 7 (try destruct c as [c|c|])].

Lemma match_profile_here_head s X :
  match_profile_here s = Some X → ∃ v t, s = 0x31%N :: 0x30%N :: v :: t.
Proof.
  destruct s as [|c1 [|c2 [|v t]]]; [done| | |].
  - split_code_unit c1; done.
  - split_code_unit c1; try done; split_code_unit c2; done.
  - split_code_unit c1; try done; split_code_unit c2; try done.
    intros _. by eexists _, _.
Qed.

Lemma match_profile_here_Some s X :
  match_profile_here s = Some X →
  ∃ rest, s = lit "10派" ++ rest ∨ s = lit "10送" ++ rest.
Proof.
  intros Hm. destruct (match_profile_here_head _ _ Hm) as (v & t & ->).
  exists t. cbn [match_profile_here] in Hm.
  destruct (includes [lit "派"; lit "送"] [v]) eqn:Hv; [|done].
  unfold includes in Hv. apply bool_decide_eq_true in Hv.
  apply elem_of_cons in Hv as [[= ->]|Hv]; [by left|].
  apply elem_of_cons in Hv as [[= ->]|Hv]; [by right|].
  by apply elem_of_nil in Hv.
Qed.

Lemma match_profile_None profile :
  (∀ before rest, profile ≠ before ++ lit "10派" ++ rest
                  ∧ profile ≠ before ++ lit "10送" ++ rest) →
  match_profile profile = None.
Proof.
  induction profile as [|c s IH]; intros Hfree.
  - done.
  - change (match_profile (c :: s))
      with (match match_profile_here (c :: s) with
            | Some X => Some X
            | None => match_profile s
            end).
    destruct (match_profile_here (c :: s)) as [X|] eqn:Hhere.
    + apply match_profile_here_Some in Hhere as [rest [Heq|Heq]];
        destruct (Hfree [] rest) as [H1 H2]; by rewrite Heq in *.
    + apply IH. intros before rest.
      destruct (Hfree (c :: before) rest) as [H1 H2].
      split; intros ->; [by apply H1|by apply H2].
Qed.

(** X10.  The profile-text parser returns nothing for the empty text, for
    every text that contains "不转增", for every text in which neither "10派"
    nor "10送" occurs, and whenever the amount it captures is not greater
    than 0; every amount it returns is greater than 0. *)
Theorem profile_parser_returns_positive_amounts_only :
  parseCashPerShareFromProfile [] = None
  ∧ (∀ before after,
       parseCashPerShareFromProfile (before ++ lit "不转增" ++ after) = None)
  ∧ (∀ profile,
       (∀ before rest, profile ≠ before ++ lit "10派" ++ rest
                       ∧ profile ≠ before ++ lit "10送" ++ rest) →
       parseCashPerShareFromProfile profile = None)
  ∧ (∀ profile X,
       match_profile profile = Some X →
       gt (StringToNumber X) (of_Z 0) = false →
       parseCashPerShareFromProfile profile = None)
  ∧ (∀ profile cash,
       parseCashPerShareFromProfile profile = Some cash →
       gt cash (of_Z 0) = true).
Proof.
  split; [done|]. split; [|split; [|split]].
  - intros before after. unfold parseCashPerShareFromProfile, test_no_distribution.
    by rewrite contains_app, !orb_true_r.
  - intros profile Hfree. unfold parseCashPerShareFromProfile.
    rewrite (match_profile_None _ Hfree). by destruct (_ || _).
  - intros profile X HX Hle. unfold parseCashPerShareFromProfile.
    destruct (_ || _); [done|]. rewrite HX.
    destruct (isNaN (StringToNumber X) || le (StringToNumber X) (of_Z 0)) eqn:Hc;
      [done|].
    apply not_le_0_gt in Hc. congruence.
  - apply parseCashPerShareFromProfile_pos.
Qed.

(** ** Answers wrapped in a function call *)

Lemma span_app_stop (f : N → bool) w c s :
  forallb f w = true → f c = false → span f (w ++ c :: s) = (w, c :: s).
Proof.
  induction w as [|a w IH]; simpl.
  - by intros _ ->.
  - intros [Ha Hw]%andb_true_iff Hc. by rewrite Ha, IH.
Qed.

Lemma forallb_reverse {A} (f : A → bool) l :
  forallb f (reverse l) = forallb f l.
Proof.
  induction l as [|a l IH]; [done|].
  rewrite reverse_cons, forallb_app, IH. simpl. by rewrite andb_true_r, andb_comm.
Qed.

Lemma match_jsonp_wrapped w inner :
  w ≠ [] → forallb is_word w = true →
  forallb (λ c, negb (bool_decide (c ∈ [0x0A; 0x0D; 0x2028; 0x2029]%N))) inner
  = true →
  match_jsonp (w ++ lit "(" ++ inner ++ lit ")") = Some inner.
Proof.
  intros Hw Hword Hline. unfold match_jsonp.
  change (lit "(" ++ inner ++ lit ")") with (0x28%N :: inner ++ [0x29%N]).
  rewrite span_app_stop by done.
  destruct w; [done|]. simpl.
  rewrite reverse_snoc, forallb_reverse, Hline. by rewrite reverse_involutive.
Qed.

(** X11.  The quote source reads an answer that is wrapped in a function
    call: when the text of the first endpoint is not JSON but a name, an
    opening parenthesis, a text without line terminators and a closing
    parenthesis, the text between the parentheses is parsed, and the valid
    events of its rows are returned if there are any. *)
Theorem quote_source_unwraps_jsonp (P : Platform) (U : Upstream)
    secid market res w inner message json rows :
  quote_api U (ClistUrl (code_of_secid secid)) = Resolved res →
  res_ok res = true →
  res_body res = Resolved (w ++ lit "(" ++ inner ++ lit ")") →
  w ≠ [] → forallb is_word w = true →
  forallb (λ c, negb (bool_decide (c ∈ [0x0A; 0x0D; 0x2028; 0x2029]%N))) inner
  = true →
  JSON_parse U (w ++ lit "(" ++ inner ++ lit ")") = Rejected message →
  JSON_parse U inner = Resolved json →
  quote_data json = Some rows →
  omap quote_row_event rows ≠ [] →
  match_jsonp (w ++ lit "(" ++ inner ++ lit ")") = Some inner
  ∧ fetchEtfDividendFromQuote secid market
    = Resolved (omap quote_row_event rows).
Proof.
  intros Hres Hok Hbody Hw Hword Hline Hnojson Hjson Hrows Hne.
  pose proof (match_jsonp_wrapped w inner Hw Hword Hline) as Hm.
  split; [done|].
  unfold fetchEtfDividendFromQuote. cbn [quote_loop]. unfold quote_attempt.
  rewrite Hres. cbn [mbind promise_bind]. rewrite Hok. cbn [negb].
  rewrite Hbody. cbn [mbind promise_bind]. rewrite Hnojson.
  cbn [try_catch mbind promise_bind]. rewrite Hm, Hjson.
  cbn [try_catch mbind promise_bind]. rewrite Hrows.
  by destruct (omap quote_row_event rows).
Qed.

Lemma quote_source_unwraps_jsonp_witness :
  @fetchEtfDividendFromQuote Worlds.china QuoteCases.jsonp (lit "1.510300") sh
  = Resolved [{| year := of_Z 2022; cashPerShare := Fin (Q2Qc (2 # 100)) |}].
Proof.
  destruct (quote_source_unwraps_jsonp Worlds.china QuoteCases.jsonp
              (lit "1.510300") sh
              {| res_ok := true; res_status := 200;
                 res_body := Resolved (lit "cb(" ++ lit "{data}" ++ lit ")") |}
              (lit "cb") (lit "{data}") (lit "Unexpected token")
              {| quote_data := Some [QuoteCases.quote_row] |}
              [QuoteCases.quote_row])
    as [_ Hq]; [try (vm_compute; reflexivity); by compute_done..|].
  rewrite Hq. vm_compute. reflexivity.
Defined.

(** ** The lines of the price history *)

Lemma truthy_not_NaN a : truthy a = true → isNaN a = false.
Proof. by destruct a. Qed.

Lemma split_on_field sep v tail :
  sep ∉ v → tail = [] ∨ (∃ more, tail = sep :: more) →
  ∃ others, split_on sep (v ++ tail) = v :: others.
Proof.
  intros Hv [->|[more ->]].
  - rewrite app_nil_r, split_on_free by done. by eexists.
  - rewrite split_on_prefix by done. by eexists.
Qed.

(** X12.  A line of the price history is read at its commas: the text
    before the first comma is the date and the next five fields are the
    open, the close, the high, the low and the volume, each converted by
    [Number]; fields after the sixth are ignored.  A volume that is missing,
    zero or not a number is 0, so the volume of a bar is never NaN; a line
    without commas gives a bar whose prices are all NaN. *)
Theorem kline_line_is_decoded :
  (∀ d o c h l v tail,
     0x2C%N ∉ d → 0x2C%N ∉ o → 0x2C%N ∉ c → 0x2C%N ∉ h → 0x2C%N ∉ l →
     0x2C%N ∉ v → tail = [] ∨ (∃ more, tail = 0x2C%N :: more) →
     parse_kline (d ++ 0x2C%N :: o ++ 0x2C%N :: c ++ 0x2C%N :: h
                    ++ 0x2C%N :: l ++ 0x2C%N :: v ++ tail)
     = {| date := d;
          open := StringToNumber o;
          close := StringToNumber c;
          high := StringToNumber h;
          low := StringToNumber l;
          volume := if truthy (StringToNumber v)
                    then StringToNumber v else of_Z 0 |})
  ∧ (∀ line, isNaN (volume (parse_kline line)) = false)
  ∧ (∀ d, 0x2C%N ∉ d →
       parse_kline d = {| date := d; open := NaN; close := NaN; high := NaN;
                          low := NaN; volume := of_Z 0 |}).
Proof.
  split; [|split].
  - intros d o c h l v tail Hd Ho Hc Hh Hl Hv Htail. unfold parse_kline.
    rewrite !split_on_prefix by done.
    destruct (split_on_field _ v tail Hv Htail) as [others ->]. done.
  - intros line. unfold parse_kline. cbn [volume].
    destruct (truthy _) eqn:Ht; [by apply truthy_not_NaN|done].
  - intros d Hd. unfold parse_kline. by rewrite split_on_free.
Qed.

(** ** The page *)

Section Client.
Context {P : Platform} {U : Upstream}.

Lemma GET_cases query :
  (status (GET query) = 200
   ∧ ∃ r, body (GET query) = ResultBody r ∧ yearlyDividends r ≠ [])
  ∨ ((status (GET query) = 400 ∨ status (GET query) = 500)
     ∧ ∃ s e, body (GET query) = ErrorBody s e ∧ e ≠ []).
Proof.
  assert (∀ r, body (GET query) = ResultBody r → yearlyDividends r ≠ [])
    as Hne.
  { intros r Hr.
    apply GET_result_inv in Hr
      as (sec & kline & first & ds & _ & _ & Hhead & _ & _ & Hy & _).
    rewrite Hy. apply yearly_dividends_nonempty. by destruct (list_ kline). }
  revert Hne. unfold GET.
  destruct (is_nil _); cbn [status body].
  { intros _. right. split; [by left|]. by eexists _, _. }
  destruct (toSecId _) as [sec|]; cbn [status body].
  - destruct (analyse _ sec) as [response|message] eqn:Ha; cbn [status body].
    + apply analyse_resolved in Ha as [Hst [r Hr]]. intros Hne. left.
      split; [done|]. exists r. split; [done|]. by apply Hne.
    + intros _. right. split; [by right|]. eexists _, _. split; [done|].
      by apply lit_app_nonempty.
  - intros _. right. split; [by left|]. by eexists _, _.
Qed.

End Client.



Lemma gt_0_not_le a : gt a (of_Z 0) = true → le a (of_Z 0) = false.
Proof.
  unfold le, gt. destruct a as [| | |q]; try done.
  rewrite of_Z_0. intros ->. done.
Qed.

Lemma le_0_not_gt a : isNaN a = false → le a (of_Z 0) = negb (gt a (of_Z 0)).
Proof. unfold le, gt. rewrite of_Z_0. by destruct a. Qed.

Lemma simulate_without_reinvestment shares total rows :
  foldl (simulate_year false) (shares, total) rows
  = (shares,
     foldl (λ total row, add total (mul shares (ToNumber (c_totalDividend row))))
       total rows).
Proof.
  revert total. induction rows as [|row rows IH]; intros total; [done|].
  cbn [foldl simulate_year andb]. apply IH.
Qed.

Lemma simulate_with_reinvestment shares total rows :
  Forall (λ r, gt (ToNumber (c_yearEndPrice r)) (of_Z 0) = true) rows →
  (foldl (simulate_year true) (shares, total) rows).2 = total.
Proof.
  revert shares. induction rows as [|row rows IH]; intros shares Hrows; [done|].
  apply Forall_cons in Hrows as [Hrow Hrows].
  cbn [foldl simulate_year andb]. rewrite Hrow. by apply IH.
Qed.

(** The parts of a simulation that gives figures. *)
Lemma simulation_figures (B : Browser) result principal reinvest f :
  simulation B (Some result) principal reinvest = Resolved (CanSimulate f) →
  ∃ rows startIndex entry,
    c_yearlyDividends result = Some rows
    ∧ list_find start_price_positive rows = Some (startIndex, entry)
    ∧ le principal (of_Z 0) = false
    ∧ let state := foldl (simulate_year reinvest)
                     (div principal (ToNumber (c_yearStartPrice entry)), of_Z 0)
                     (drop startIndex rows) in
      endValue f = mul state.1 (ToNumber (c_endPrice result))
      ∧ totalCashReceived f = state.2
      ∧ totalReturn f
        = sub (add (endValue f) (totalCashReceived f)) principal
      ∧ totalReturnPercent f
        = mul (div (totalReturn f) principal) (of_Z 100).
Proof.
  unfold simulation.
  destruct (to_boolean _); [done|].
  destruct (c_yearlyDividends result) as [rows|]; [|done].
  destruct (is_nil_list rows); [done|].
  destruct (list_find _ rows) as [[startIndex entry]|] eqn:Hfind; [|done].
  destruct (le principal (of_Z 0)) eqn:Hp; [done|]. cbn [orb].
  destruct (le (ToNumber (c_yearStartPrice entry)) (of_Z 0)); [done|].
  destruct (foldl _ _ _) as [shares total] eqn:Hfold.
  intros [= <-]. exists rows, startIndex, entry. cbn zeta. rewrite Hfold.
  split; [done|]. split; [exact Hfind|]. done.
Qed.

Lemma add_0_r a : add a (of_Z 0) = a.
Proof.
  rewrite of_Z_0. destruct a as [| | |x]; try done.
  unfold add. by rewrite Qcplus_0_r.
Qed.












Lemma received_fields code response :
  c_yearlyDividends (received code response)
  = c_yearlyDividends (json_body (body response))
  ∧ c_endPrice (received code response)
    = c_endPrice (json_body (body response))
  ∧ c_error (received code response) = c_error (json_body (body response)).
Proof. unfold received. by destruct (negb _). Qed.

Section Transport.
Context {P : Platform} {U : Upstream}.



End Transport.

(** X13.  The page and the endpoint together: when the request of
    [handleSubmit] fails or is answered by the endpoint, the simulation of
    the page does not throw, and it gives something to show, the figures or
    the notice that it cannot simulate, exactly when the symbol is not blank
    and the answer has status 200. *)
Theorem page_simulates_exactly_the_analyses (P : Platform) (U : Upstream)
    (B : Browser) symbol principal reinvest :
  let code := toUpperCase B (trim symbol) in
  (∀ response, request B code = Resolved response →
               ∃ query, response = GET query) →
  ∃ s, simulation B (handleSubmit B symbol) principal reinvest = Resolved s
       ∧ (s ≠ NoSimulation
          ↔ code ≠ [] ∧ ∃ response, request B code = Resolved response
                                      ∧ status response = 200).
Proof.
  intros code. subst code. unfold handleSubmit.
  destruct (toUpperCase B (trim symbol)) as [|c rest]; cbn [is_nil].
  { intros _. exists NoSimulation. split; [done|]. split; [done|].
    by intros [? _]. }
  destruct (request B (c :: rest)) as [response|message].
  - intros Hreq. destruct (Hreq _ eq_refl) as [query ->].
    destruct (received_fields (c :: rest) (GET query)) as (Hrows & _ & Herr).
    unfold simulation. rewrite Herr, Hrows.
    destruct (GET_cases query)
      as [[Hst (r & Hb & Hne)]|[Hst (s & e & Hb & He)]]; rewrite Hb.
    + cbn [json_body c_error to_boolean c_yearlyDividends].
      destruct (yearlyDividends r) as [|y ys]; [done|].
      rewrite fmap_cons. cbn [is_nil_list].
      assert (∀ s : SimulationResult, s ≠ NoSimulation →
                ∃ s', Resolved s = Resolved s'
                      ∧ (s' ≠ NoSimulation
                         ↔ c :: rest ≠ []
                           ∧ ∃ response, Resolved (GET query) = Resolved response
                                         ∧ status response = 200)) as Hshow.
      { intros s Hs. exists s. split; [done|]. split; [|done].
        intros _. split; [done|]. by exists (GET query). }
      destruct (list_find _ _) as [[startIndex entry]|]; [|by apply Hshow].
      destruct (le principal (of_Z 0) || _); [by apply Hshow|].
      destruct (foldl _ _ _) as [shares total]. by apply Hshow.
    + cbn [json_body c_error to_boolean].
      destruct e as [|e0 e]; [done|]. cbn [is_nil negb].
      exists NoSimulation. split; [done|]. split; [done|].
      intros [_ (response & [= <-] & Hst')]. rewrite Hst' in Hst.
      by destruct Hst.
  - intros _. exists NoSimulation. split.
    + unfold simulation. cbn [c_error c_yearlyDividends to_boolean].
      by destruct message.
    + split; [done|]. by intros [_ (response & ? & _)].
Qed.

Lemma page_simulates_exactly_the_analyses_witness :
  ∃ s, simulation (PageCases.browser Worlds.one_dividend)
         (handleSubmit (PageCases.browser Worlds.one_dividend) (lit " 600519 "))
         (principal_of (lit "100000")) false
       = Resolved s
       ∧ s ≠ NoSimulation.
Proof.
  destruct (page_simulates_exactly_the_analyses Worlds.china
              Worlds.one_dividend (PageCases.browser Worlds.one_dividend)
              (lit " 600519 ") (principal_of (lit "100000")) false)
    as (s & Hs & Hshow).
  { intros response [= <-]. by eexists. }
  exists s. split; [exact Hs|]. apply Hshow. split; [by vm_compute|].
  eexists. split; [reflexivity|]. vm_compute. reflexivity.
Defined.


(** X14.  For a result without an error and with at least one yearly row,
    the simulation reports that it cannot simulate exactly when no row has a
    start price greater than 0 or the principal is at most 0; in every other
    case it gives the figures.  The check of the buy price never decides:
    the row that was found has a start price greater than 0. *)
Theorem cannot_simulate_conditions (B : Browser) result rows principal
    reinvest :
  to_boolean (c_error result) = false →
  c_yearlyDividends result = Some rows →
  rows ≠ [] →
  (simulation B (Some result) principal reinvest = Resolved CannotSimulate
   ↔ Forall (λ r, gt (ToNumber (c_yearStartPrice r)) (of_Z 0) = false) rows
     ∨ le principal (of_Z 0) = true)
  ∧ (simulation B (Some result) principal reinvest ≠ Resolved CannotSimulate →
     ∃ f, simulation B (Some result) principal reinvest
          = Resolved (CanSimulate f)).
Proof.
  intros Herr Hrows Hne. unfold simulation. rewrite Herr, Hrows.
  destruct rows as [|row rows']; [done|]. cbn [is_nil_list].
  destruct (list_find _ _) as [[startIndex entry]|] eqn:Hfind.
  - apply list_find_Some in Hfind as (Hlook & Hpos & _).
    unfold start_price_positive in Hpos.
    rewrite (gt_0_not_le _ Hpos), orb_false_r.
    destruct (le principal (of_Z 0)) eqn:Hp.
    + split; [|done]. split; [by right|done].
    + destruct (foldl _ _ _) as [shares total].
      split; [|intros _; by eexists]. split; [done|].
      intros [Hall|?]; [|done].
      apply list_elem_of_lookup_2 in Hlook.
      rewrite Forall_forall in Hall. apply Hall in Hlook. congruence.
  - apply list_find_None in Hfind. split; [|done]. split; [|done].
    intros _. left. eapply Forall_impl; [exact Hfind|].
    intros r Hr. unfold start_price_positive in Hr.
    by apply not_true_is_false.
Qed.


Lemma cannot_simulate_conditions_witness :
  simulation (PageCases.browser Worlds.one_dividend)
    (Some (PageCases.answer Worlds.one_dividend))
    (principal_of (lit "-5")) true
  = Resolved CannotSimulate.
Proof.
  eapply (cannot_simulate_conditions (PageCases.browser Worlds.one_dividend)
            (PageCases.answer Worlds.one_dividend)).
  - vm_compute. reflexivity.
  - vm_compute. reflexivity.
  - done.
  - right. vm_compute. reflexivity.
Defined.

(** X15.  The principal of the page is never NaN: it is the number that the
    input denotes when that is greater than 0, it is 0 for the empty input
    and for every input that denotes no number, and it is at most 0, so that
    nothing is simulated, exactly when the input does not denote a number
    greater than 0. *)
Theorem principal_is_a_number input :
  isNaN (principal_of input) = false
  ∧ principal_of [] = of_Z 0
  ∧ (isNaN (StringToNumber input) = true → principal_of input = of_Z 0)
  ∧ (gt (StringToNumber input) (of_Z 0) = true →
     principal_of input = StringToNumber input)
  ∧ le (principal_of input) (of_Z 0)
    = negb (gt (StringToNumber input) (of_Z 0)).
Proof.
  unfold principal_of. destruct input as [|c input]; cbn [is_nil].
  { split; [done|]. split; [done|]. split; [done|].
    split; [by vm_compute|]. vm_compute. reflexivity. }
  set (n := StringToNumber (c :: input)).
  destruct (truthy n) eqn:Ht.
  - pose proof (truthy_not_NaN _ Ht) as Hn.
    split; [done|]. split; [done|]. split; [by rewrite Hn|].
    split; [done|]. by apply le_0_not_gt.
  - split; [done|]. split; [done|]. split; [done|].
    destruct (gt n (of_Z 0)) eqn:Hg.
    { apply gt_0_truthy in Hg. congruence. }
    split; [done|]. vm_compute. reflexivity.
Qed.


(** X16.  Without reinvestment the number of shares never changes: the end
    value is the shares bought at the start price of the first row whose
    start price is greater than 0, times the end price of the result, and
    the cash received is the sum over the rows from that row on of these
    shares times the total dividend of the row; rows before it pay
    nothing. *)
Theorem without_reinvestment_the_shares_stay (B : Browser) result principal
    f :
  simulation B (Some result) principal false = Resolved (CanSimulate f) →
  ∃ rows startIndex entry,
    c_yearlyDividends result = Some rows
    ∧ list_find start_price_positive rows = Some (startIndex, entry)
    ∧ let shares := div principal (ToNumber (c_yearStartPrice entry)) in
      endValue f = mul shares (ToNumber (c_endPrice result))
      ∧ totalCashReceived f = cash_of_shares shares (drop startIndex rows).
Proof.
  intros Hsim.
  apply simulation_figures in Hsim
    as (rows & startIndex & entry & Hrows & Hfind & _ & Hend & Hcash & _).
  exists rows, startIndex, entry. split; [done|]. split; [done|].
  rewrite simulate_without_reinvestment in Hend, Hcash. by split.
Qed.


Lemma without_reinvestment_the_shares_stay_witness :
  ∃ f, simulation (PageCases.browser Worlds.one_dividend)
         (Some (PageCases.answer Worlds.one_dividend))
         (principal_of (lit "100000")) false
       = Resolved (CanSimulate f)
       ∧ endValue f = of_Z 120000
       ∧ totalCashReceived f = of_Z 5000
       ∧ totalReturn f = of_Z 25000
       ∧ totalReturnPercent f = of_Z 25.
Proof.
  eexists. split; [vm_compute; reflexivity|].
  edestruct (without_reinvestment_the_shares_stay
               (PageCases.browser Worlds.one_dividend)
               (PageCases.answer Worlds.one_dividend)
               (principal_of (lit "100000")))
    as (rows & startIndex & entry & _ & _ & _ & _);
    [vm_compute; reflexivity|].
  cbn [endValue totalCashReceived totalReturn totalReturnPercent].
  repeat split; by compute_done.
Defined.

(** X17.  With reinvestment, when the end price of every row is greater
    than 0, every dividend buys shares and no cash is left: the cash received
    is 0 and the total return is the end value less the principal. *)
Theorem reinvested_dividends_leave_no_cash (B : Browser) result rows
    principal f :
  simulation B (Some result) principal true = Resolved (CanSimulate f) →
  c_yearlyDividends result = Some rows →
  Forall (λ r, gt (ToNumber (c_yearEndPrice r)) (of_Z 0) = true) rows →
  totalCashReceived f = of_Z 0
  ∧ totalReturn f = sub (endValue f) principal.
Proof.
  intros Hsim Hrows Hpos.
  apply simulation_figures in Hsim
    as (rows' & startIndex & entry & Hrows' & _ & _ & _ & Hcash & Hret & _).
  assert (rows' = rows) as -> by congruence.
  rewrite simulate_with_reinvestment in Hcash by by apply Forall_drop.
  split; [done|]. by rewrite Hret, Hcash, add_0_r.
Qed.


Lemma reinvested_dividends_leave_no_cash_witness :
  ∃ f, simulation (PageCases.browser Worlds.one_dividend)
         (Some (PageCases.answer Worlds.one_dividend))
         (principal_of (lit "100000")) true
       = Resolved (CanSimulate f)
       ∧ totalCashReceived f = of_Z 0
       ∧ totalReturn f = sub (endValue f) (principal_of (lit "100000")).
Proof.
  eexists. split; [vm_compute; reflexivity|].
  eapply (reinvested_dividends_leave_no_cash
            (PageCases.browser Worlds.one_dividend)
            (PageCases.answer Worlds.one_dividend)).
  - vm_compute. reflexivity.
  - vm_compute. reflexivity.
  - by compute_done.
Defined.





